(** * The Django-backed XBlock user-state client

    A shallow embedding of [lms/djangoapps/courseware/user_state_client.py]:
    the [DjangoXBlockUserStateClient] with its [get]/[set]/[delete] family,
    the history reader and the two paginated bulk scans, over an explicit
    model of the [StudentModule] table.

    Conventions.
    - A Python dict of field names to values is a [gmap string value];
      [value] stands for the JSON-representable field values and is left
      abstract.
    - The JSON codec ([json.dumps] / [json.loads]) is a collaborator: it is a
      pair of section variables, and the only facts used about it are the
      round trip and the encoding of the empty dict.
    - The storage layer is the record [World]; every operation threads it
      explicitly.  An exception does not roll the world back: the source
      wraps no transaction around a whole batch.
    - A generator is modelled by what draining it produces: the items it
      yields, in order, and the exception that ends it, if any.
    - The history log belongs to a collaborator of its own, which appends
      to it when a row is saved; the operations here never write it, and
      [get_history] takes it as an argument.
    - Calls to the monitoring side channel ([_nr_stat_*], [time()]) do not
      influence control flow or results and are left out. *)

From Stdlib Require Import Ascii DecimalString DecimalZ ZArith.
From stdpp Require Import base option list strings gmap fin_maps sorting.

(** ** Keys and scopes *)

(** Course keys are opaque; they only need equality and the order that
    [sorted] uses. *)
Definition CourseKey := string.

Record UsageKey := mkUsageKey {
  context_key : CourseKey;
  block_type : string;
  block_id : string;
}.

Global Instance UsageKey_eq_dec : EqDecision UsageKey.
Proof. solve_decision. Defined.

(** [usage_key.map_into_course(course_id)] *)
Definition map_into_course (k : UsageKey) (c : CourseKey) : UsageKey :=
  {| context_key := c; block_type := block_type k; block_id := block_id k |}.

(** The named scopes of [xblock.fields.Scope]. *)
Inductive Scope :=
  | Scope_content
  | Scope_settings
  | Scope_user_state
  | Scope_preferences
  | Scope_user_info
  | Scope_user_state_summary.

Global Instance Scope_eq_dec : EqDecision Scope.
Proof. solve_decision. Defined.

(** ** Exceptions and results *)

Inductive exn :=
  | ValueError               (* unsupported scope *)
  | DoesNotExist             (* XBlockUserStateClient.DoesNotExist *)
  | User_DoesNotExist        (* User.DoesNotExist *)
  | MultipleObjectsReturned
  | IntegrityError
  | DatabaseError            (* forced update that affects no row *)
  | TypeError                (* json.loads(None) *)
  | JSONDecodeError
  | ZeroDivisionError.

Global Instance exn_eq_dec : EqDecision exn.
Proof. solve_decision. Defined.

Inductive result (A : Type) :=
  | Ok (a : A)
  | Raise (e : exn).
Arguments Ok {A} a.
Arguments Raise {A} e.

(** ** Rows and read-models *)

Module StudentModule.
Record t := mk {
  id : nat;
  student : string;            (* username of the owning user *)
  course_id : CourseKey;
  module_state_key : UsageKey;
  module_type : string;
  state : option string;       (* nullable text column *)
  modified : nat;              (* auto_now timestamp *)
}.

Definition with_state (sm : t) (s : option string) : t :=
  mk (id sm) (student sm) (course_id sm) (module_state_key sm)
     (module_type sm) s (modified sm).

Definition with_modified (sm : t) (now : nat) : t :=
  mk (id sm) (student sm) (course_id sm) (module_state_key sm)
     (module_type sm) (state sm) now.
End StudentModule.

Module XBlockUserState.
Record t (value : Type) := mk {
  username : string;
  block_key : UsageKey;
  state : option (gmap string value);   (* [None] only in history entries *)
  updated : nat;
  scope : Scope;
}.
Arguments mk {value} _ _ _ _ _.
Arguments username {value} _.
Arguments block_key {value} _.
Arguments state {value} _.
Arguments updated {value} _.
Arguments scope {value} _.
End XBlockUserState.

Module HistoryEntry.
Record t := mk {
  csm : StudentModule.t;
  state : option string;
  created : nat;
}.
End HistoryEntry.

(** ** Users *)

Inductive User :=
  | RegisteredUser (name : string)
  | AnonymousUser.

Definition User_username (u : User) : string :=
  match u with RegisteredUser n => n | AnonymousUser => EmptyString end.

Definition is_anonymous (u : User) : bool :=
  match u with RegisteredUser _ => false | AnonymousUser => true end.

Record DjangoXBlockUserStateClient := mkClient {
  user : option User;
}.

(** ** The storage collaborator *)

Inductive LogRecord :=
  | Warn_IntegrityError (student : User) (course : CourseKey) (key : UsageKey)
  | Warn_AllBlockKeys (count : nat) (keys : list UsageKey).

(** [concurrent_rows] are the rows another process has committed and this
    process cannot see yet (PLAT-1109): a lookup misses them and an insert
    collides with them.  [rejected_updates] are the ids of the rows whose
    UPDATE the database refuses with an integrity error (TNL-5365). *)
Record World := mkWorld {
  student_modules : list StudentModule.t;
  users : list string;
  concurrent_rows : list (string * CourseKey * UsageKey);
  rejected_updates : list nat;
  next_id : nat;
  clock : nat;
  log : list LogRecord;
}.

Definition M (A : Type) : Type := World → result A * World.

Definition ret {A} (a : A) : M A := λ w, (Ok a, w).
Definition raise {A} (e : exn) : M A := λ w, (Raise e, w).
Definition bind {A B} (m : M A) (k : A → M B) : M B :=
  λ w, match m w with
       | (Ok a, w') => k a w'
       | (Raise e, w') => (Raise e, w')
       end.
(** [try: ... except ...]: the outcome of [m] as a value. *)
Definition try_ {A} (m : M A) : M (result A) :=
  λ w, let '(r, w') := m w in (Ok r, w').

Notation "'let*' x := c 'in' k" := (bind c (λ x, k))
  (at level 10, x pattern, c at level 100, k at level 200).

(** The world with one more log record. *)
Definition logged (r : LogRecord) (w : World) : World :=
  mkWorld (student_modules w) (users w) (concurrent_rows w)
          (rejected_updates w) (next_id w) (clock w) (log w ++ [r]).

(** The world after the INSERT of the row [sm]. *)
Definition inserted (sm : StudentModule.t) (w : World) : World :=
  mkWorld (student_modules w ++ [sm]) (users w) (concurrent_rows w)
          (rejected_updates w) (S (next_id w)) (S (clock w)) (log w).

(** The world after the UPDATE that writes the object [sm] to the row with
    its id; [modified] is set by the database. *)
Definition updated (sm : StudentModule.t) (w : World) : World :=
  mkWorld
    ((λ r, if decide (StudentModule.id r = StudentModule.id sm)
           then StudentModule.with_modified sm (clock w) else r)
       <$> student_modules w)
    (users w) (concurrent_rows w) (rejected_updates w) (next_id w)
    (S (clock w)) (log w).

(** [log.warning(...)] *)
Definition log_warning (r : LogRecord) : M unit :=
  λ w, (Ok tt, logged r w).

(** [User.objects.get(username=username)] *)
Definition User_objects_get (username : string) : M User :=
  λ w, if decide (username ∈ users w) then (Ok (RegisteredUser username), w)
       else (Raise User_DoesNotExist, w).

(** The rows a lookup on (student, course_id, module_state_key) matches. *)
Definition row_matches (username : string) (course : CourseKey) (key : UsageKey)
    (sm : StudentModule.t) : Prop :=
  StudentModule.student sm = username ∧
  StudentModule.course_id sm = course ∧
  StudentModule.module_state_key sm = key.

Global Instance row_matches_dec u c k sm : Decision (row_matches u c k sm).
Proof. unfold row_matches. apply _. Defined.

(** [StudentModule.objects.get_or_create(student=, course_id=,
    module_state_key=, defaults={'state':, 'module_type':})] *)
Definition get_or_create (student : User) (course : CourseKey) (key : UsageKey)
    (default_state : string) (default_type : string)
    : M (StudentModule.t * bool) :=
  λ w,
    match filter (row_matches (User_username student) course key)
                 (student_modules w) with
    | [sm] => (Ok (sm, false), w)
    | _ :: _ :: _ => (Raise MultipleObjectsReturned, w)
    | [] =>
        if decide ((User_username student, course, key) ∈ concurrent_rows w)
        then (Raise IntegrityError, w)
        else
          let sm := StudentModule.mk (next_id w) (User_username student) course
                      key default_type (Some default_state) (clock w) in
          (Ok (sm, true), inserted sm w)
    end.

(** [student_module.save(force_update=True)]: an UPDATE of the row with the
    object's primary key, never an INSERT. *)
Definition save_force_update (sm : StudentModule.t) : M unit :=
  λ w,
    if decide (StudentModule.id sm ∈ rejected_updates w)
    then (Raise IntegrityError, w)
    else if decide (StudentModule.id sm ∈ StudentModule.id <$> student_modules w)
    then (Ok tt, updated sm w)
    else (Raise DatabaseError, w).

(** ** Reading rows for a set of keys *)

(** [sorted(xs, key=...)]: stable, ascending. *)
Fixpoint insert_by {A} (key : A → string) (x : A) (l : list A) : list A :=
  match l with
  | [] => [x]
  | y :: l' => if String.leb (key x) (key y) then x :: y :: l'
               else y :: insert_by key x l'
  end.

Definition sorted {A} (key : A → string) (l : list A) : list A :=
  foldr (insert_by key) [] l.

(** [itertools.groupby]: runs of consecutive items with equal keys. *)
Fixpoint groupby {A} (key : A → string) (l : list A) : list (string * list A) :=
  match l with
  | [] => []
  | x :: l' =>
      match groupby key l' with
      | (k, g) :: gs =>
          if decide (key x = k) then (k, x :: g) :: gs
          else (key x, [x]) :: (k, g) :: gs
      | [] => [(key x, [x])]
      end
  end.

(** Modelled from the spec: [StudentModule.objects.chunked_filter] lives in
    the models module, which is not part of the sources at hand.  It is the
    query "find all records for these content-keys within this container"
    for one user, answered in table order. *)
Definition chunked_filter (usage_keys : list UsageKey) (username : string)
    (course : CourseKey) (w : World) : list StudentModule.t :=
  filter (λ sm, StudentModule.student sm = username ∧
                StudentModule.course_id sm = course ∧
                StudentModule.module_state_key sm ∈ usage_keys)
         (student_modules w).

Definition _get_student_modules (username : string) (block_keys : list UsageKey)
    (w : World) : list (StudentModule.t * UsageKey) :=
  let by_context := groupby context_key (sorted context_key block_keys) in
  '(context_key, usage_keys) ← by_context;
  student_module ← chunked_filter usage_keys username context_key w;
  [(student_module,
    map_into_course (StudentModule.module_state_key student_module)
                    (StudentModule.course_id student_module))].

Definition id_le (a b : StudentModule.t) : Prop :=
  StudentModule.id a ≤ StudentModule.id b.

Global Instance id_le_dec a b : Decision (id_le a b).
Proof. unfold id_le. apply _. Defined.

(** ** Generators *)

(** The items a generator yields and the exception that ends it. *)
Definition Gen (A : Type) : Type := (list A * option exn)%type.

Definition gen_done {A} : Gen A := ([], None).
Definition gen_raise {A} (e : exn) : Gen A := ([], Some e).
Definition gen_yield {A} (x : A) : Gen A := ([x], None).
Definition gen_seq {A} (g1 g2 : Gen A) : Gen A :=
  match g1.2 with
  | Some e => g1
  | None => (g1.1 ++ g2.1, g2.2)
  end.
(** [for x in l: body] inside a generator; [gen_done] is [continue]. *)
Definition gen_for {A B} (l : list B) (body : B → Gen A) : Gen A :=
  foldr (λ x rest, gen_seq (body x) rest) gen_done l.

(** [next(g)] for a fresh generator [g]; [None] is [StopIteration]. *)
Definition next {A} (g : Gen A) : result (option A) :=
  match g with
  | (x :: _, _) => Ok (Some x)
  | ([], Some e) => Raise e
  | ([], None) => Ok None
  end.

(** ** Django's paginator (default [orphans] and [allow_empty_first_page]) *)

Module Paginator.
Definition num_pages (count per_page : nat) : nat :=
  let hits := Nat.max 1 count in
  (hits + per_page - 1) / per_page.

Definition page_range (count per_page : nat) : list nat :=
  seq 1 (num_pages count per_page).

Definition page {A} (object_list : list A) (per_page number : nat) : list A :=
  let count := length object_list in
  let bottom := (number - 1) * per_page in
  let top := bottom + per_page in
  let top := if decide (count ≤ top) then count else top in
  take (top - bottom) (drop bottom object_list).
End Paginator.

(** ** Field dictionaries *)

(** [{field: state[field] for field in fields if field in state}] *)
Definition select_fields {value} (fields : list string)
    (state : gmap string value) : gmap string value :=
  foldl (λ acc field,
           match state !! field with
           | Some v => <[field := v]> acc
           | None => acc
           end) ∅ fields.

(** [for field in fields: if field in current_state: del current_state[field]] *)
Definition remove_fields {value} (fields : list string)
    (current_state : gmap string value) : gmap string value :=
  foldl (λ current_state field,
           if decide (is_Some (current_state !! field))
           then delete field current_state
           else current_state)
        current_state fields.

Section Client.
Context {value : Type}.

(** [json.dumps] on a dict of fields, and [json.loads]; [None] stands for
    a decoding error. *)
Variable json_dumps : gmap string value → string.
Variable json_loads : string → option (gmap string value).

(** [settings.USER_STATE_BATCH_SIZE] *)
Variable USER_STATE_BATCH_SIZE : nat.

Implicit Types (self : DjangoXBlockUserStateClient) (w : World).
Implicit Types (username : string) (block_key usage_key : UsageKey).

Definition get_many self username (block_keys : list UsageKey) (scope : Scope)
    (fields : option (list string)) w : Gen (XBlockUserState.t value) :=
  if decide (scope ≠ Scope_user_state) then gen_raise ValueError else
  let modules := _get_student_modules username block_keys w in
  gen_for modules (λ '(module, usage_key),
    match StudentModule.state module with
    | None => gen_done
    | Some text =>
        match json_loads text with
        | None => gen_raise JSONDecodeError
        | Some state =>
            if decide (state = ∅) then gen_done else
            let state :=
              match fields with
              | None => state
              | Some fields => select_fields fields state
              end in
            gen_yield (XBlockUserState.mk username usage_key (Some state)
                         (StudentModule.modified module) scope)
        end
    end).

(** [XBlockUserStateClient.get] *)
Definition get self username block_key (scope : Scope)
    (fields : option (list string)) w : result (XBlockUserState.t value) :=
  match next (get_many self username [block_key] scope fields w) with
  | Ok (Some x) => Ok x
  | Ok None => Raise DoesNotExist
  | Raise e => Raise e
  end.

(** What one turn of the [set_many] loop does next. *)
Inductive flow := Continue | Return.

Definition set_many_body self (student : User)
    (block_keys_to_state : list (UsageKey * gmap string value))
    (item : UsageKey * gmap string value) : M flow :=
  let '(usage_key, state) := item in
  let* r := try_ (get_or_create student (context_key usage_key) usage_key
                    (json_dumps state) (block_type usage_key)) in
  match r with
  | Raise IntegrityError =>
      let* _ := log_warning
                  (Warn_IntegrityError student (context_key usage_key) usage_key) in
      ret Return
  | Raise e => raise e
  | Ok (student_module, created) =>
      if created : bool then ret Continue else
      let* current_state :=
        match StudentModule.state student_module with
        | None => ret ∅
        | Some text =>
            match json_loads text with
            | Some d => ret d
            | None => raise JSONDecodeError
            end
        end in
      let current_state := state ∪ current_state in
      let student_module :=
        StudentModule.with_state student_module (Some (json_dumps current_state)) in
      let* r := try_ (save_force_update student_module) in
      match r with
      | Raise IntegrityError =>
          let* _ := log_warning
                      (Warn_IntegrityError student (context_key usage_key) usage_key) in
          let* _ := log_warning
                      (Warn_AllBlockKeys (length block_keys_to_state)
                                         (block_keys_to_state.*1)) in
          ret Continue
      | Raise e => raise e
      | Ok _ => ret Continue
      end
  end.

Fixpoint set_many_loop self (student : User)
    (block_keys_to_state items : list (UsageKey * gmap string value)) : M unit :=
  match items with
  | [] => ret tt
  | item :: items =>
      let* f := set_many_body self student block_keys_to_state item in
      match f with
      | Return => ret tt
      | Continue => set_many_loop self student block_keys_to_state items
      end
  end.

(** [block_keys_to_state] is the dict's items in iteration order. *)
Definition set_many self username
    (block_keys_to_state : list (UsageKey * gmap string value))
    (scope : Scope) : M unit :=
  if decide (scope ≠ Scope_user_state) then raise ValueError else
  let* student :=
    match user self with
    | Some u => if decide (User_username u = username) then ret u
                else User_objects_get username
    | None => User_objects_get username
    end in
  if is_anonymous student then ret tt else
  set_many_loop self student block_keys_to_state block_keys_to_state.

(** [XBlockUserStateClient.set] *)
Definition set self username block_key (state : gmap string value)
    (scope : Scope) : M unit :=
  set_many self username [(block_key, state)] scope.

Fixpoint delete_many_loop (fields : option (list string))
    (student_modules : list (StudentModule.t * UsageKey)) : M unit :=
  match student_modules with
  | [] => ret tt
  | (student_module, _) :: rest =>
      let* text :=
        match fields with
        | None => ret "{}"
        | Some fields =>
            match StudentModule.state student_module with
            | None => raise TypeError
            | Some text =>
                match json_loads text with
                | None => raise JSONDecodeError
                | Some current_state =>
                    ret (json_dumps (remove_fields fields current_state))
                end
            end
        end in
      let* _ := save_force_update
                  (StudentModule.with_state student_module (Some text)) in
      delete_many_loop fields rest
  end.

Definition delete_many self username (block_keys : list UsageKey)
    (scope : Scope) (fields : option (list string)) : M unit :=
  if decide (scope ≠ Scope_user_state) then raise ValueError else
  λ w, delete_many_loop fields (_get_student_modules username block_keys w) w.

(** [XBlockUserStateClient.delete] *)
Definition delete self username block_key (scope : Scope)
    (fields : option (list string)) : M unit :=
  delete_many self username [block_key] scope fields.

(** Modelled from the spec: [BaseStudentModuleHistory.get_history] lives in
    the models module, which is not part of the sources at hand.  The
    history collaborator is an append-only log keyed by storage row, queried
    in reverse-chronological order for a set of rows; [history_log] is that
    log, most recent entry first. *)
Definition BaseStudentModuleHistory_get_history
    (history_log : list HistoryEntry.t)
    (student_modules : list StudentModule.t) : list HistoryEntry.t :=
  filter (λ entry, StudentModule.id (HistoryEntry.csm entry)
                     ∈ StudentModule.id <$> student_modules)
         history_log.

Definition get_history self (history_log : list HistoryEntry.t)
    username block_key (scope : Scope) w : Gen (XBlockUserState.t value) :=
  if decide (scope ≠ Scope_user_state) then gen_raise ValueError else
  let student_modules := (_get_student_modules username [block_key] w).*1 in
  if decide (length student_modules = 0) then gen_raise DoesNotExist else
  let history_entries :=
    BaseStudentModuleHistory_get_history history_log student_modules in
  if decide (history_entries = []) then gen_raise DoesNotExist else
  gen_for history_entries (λ history_entry,
    match
      match HistoryEntry.state history_entry with
      | None => Ok None
      | Some text =>
          match json_loads text with
          | None => Raise JSONDecodeError
          | Some state => Ok (Some state)
          end
      end
    with
    | Raise e => gen_raise e
    | Ok state =>
        let state :=
          match state with
          | Some d => if decide (d = ∅) then None else Some d
          | None => None
          end in
        let block_key :=
          map_into_course
            (StudentModule.module_state_key (HistoryEntry.csm history_entry))
            (StudentModule.course_id (HistoryEntry.csm history_entry)) in
        gen_yield (XBlockUserState.mk username block_key state
                     (HistoryEntry.created history_entry) scope)
    end).

(** [StudentModule.objects.order_by('id')] *)
Definition order_by_id (rows : list StudentModule.t) : list StudentModule.t :=
  merge_sort id_le rows.

(** The loop over pages shared by the two bulk scans. *)
Definition iter_pages (results : list StudentModule.t) (scope : Scope)
    : Gen (XBlockUserState.t value) :=
  if decide (USER_STATE_BATCH_SIZE = 0) then gen_raise ZeroDivisionError else
  gen_for (Paginator.page_range (length results) USER_STATE_BATCH_SIZE)
    (λ page_number,
       let page := Paginator.page results USER_STATE_BATCH_SIZE page_number in
       gen_for page (λ sm,
         match StudentModule.state sm with
         | None => gen_raise TypeError
         | Some text =>
             match json_loads text with
             | None => gen_raise JSONDecodeError
             | Some state =>
                 if decide (state = ∅) then gen_done else
                 gen_yield (XBlockUserState.mk (StudentModule.student sm)
                              (StudentModule.module_state_key sm) (Some state)
                              (StudentModule.modified sm) scope)
             end
         end)).

Definition iter_all_for_block self block_key (scope : Scope) w
    : Gen (XBlockUserState.t value) :=
  if decide (scope ≠ Scope_user_state) then gen_raise ValueError else
  let results :=
    filter (λ sm, StudentModule.module_state_key sm = block_key)
           (order_by_id (student_modules w)) in
  iter_pages results scope.

(** [if block_type:] holds for a given, non-empty block type. *)
Definition iter_all_for_course self (course_key : CourseKey)
    (block_type : option string) (scope : Scope) w
    : Gen (XBlockUserState.t value) :=
  if decide (scope ≠ Scope_user_state) then gen_raise ValueError else
  let results :=
    filter (λ sm, StudentModule.course_id sm = course_key)
           (order_by_id (student_modules w)) in
  let results :=
    match block_type with
    | Some ty =>
        if decide (ty = EmptyString) then results
        else filter (λ sm, StudentModule.module_type sm = ty) results
    | None => results
    end in
  iter_pages results scope.

End Client.

(** ** What the table holds for one user and key *)

Definition rows_for (w : World) (username : string) (k : UsageKey)
    : list StudentModule.t :=
  filter (row_matches username (context_key k) k) (student_modules w).

(** The state column of the records of (username, k). *)
Definition stored_state (w : World) (username : string) (k : UsageKey)
    : list (option string) :=
  StudentModule.state <$> rows_for w username k.

(** The decoded fields the table holds for (username, k): none when there is
    no record or its state is null. *)
Definition stored_fields {value} (json_loads : string → option (gmap string value))
    (w : World) (username : string) (k : UsageKey)
    : option (gmap string value) :=
  match stored_state w username k with
  | [] => Some ∅
  | [None] => Some ∅
  | [Some text] => json_loads text
  | _ => None
  end.

(** Ids are a primary key handed out in increasing order. *)
Definition primary_keys_ok (w : World) : Prop :=
  NoDup (StudentModule.id <$> student_modules w) ∧
  Forall (λ sm, StudentModule.id sm < next_id w) (student_modules w).

(** No other process gets in the way of this one. *)
Definition no_interference (w : World) : Prop :=
  concurrent_rows w = [] ∧ rejected_updates w = [].

Definition registered (w : World) (username : string) : Prop :=
  username ≠ EmptyString ∧ username ∈ users w.

Definition settled (w : World) (username : string) : Prop :=
  primary_keys_ok w ∧ no_interference w ∧ registered w username.

Global Instance primary_keys_ok_dec w : Decision (primary_keys_ok w).
Proof. unfold primary_keys_ok. apply _. Defined.

Global Instance settled_dec w username : Decision (settled w username).
Proof. unfold settled, no_interference, registered. apply _. Defined.

(** [fields] of a read-model, when the operation returned one. *)
Definition fields_of {value} (r : result (XBlockUserState.t value))
    : result (option (gmap string value)) :=
  match r with
  | Ok x => Ok (XBlockUserState.state x)
  | Raise e => Raise e
  end.

(** The user [set_many] stores for, given the registered usernames. *)
Definition student_of (self : DjangoXBlockUserStateClient) (username : string)
    (registered_users : list string) : result User :=
  let lookup := if decide (username ∈ registered_users)
                then Ok (RegisteredUser username) else Raise User_DoesNotExist in
  match user self with
  | Some u => if decide (User_username u = username) then Ok u else lookup
  | None => lookup
  end.

(** The fields [set_many] merges into: the decoded state of a row. *)
Definition current_state_of {value}
    (json_loads : string → option (gmap string value))
    (sm : StudentModule.t) : option (gmap string value) :=
  match StudentModule.state sm with
  | None => Some ∅
  | Some text => json_loads text
  end.

(** The read-model a bulk scan makes of a row, for the rows that have one. *)
Definition read_model {value} (json_loads : string → option (gmap string value))
    (scope : Scope) (sm : StudentModule.t) : option (XBlockUserState.t value) :=
  text ← StudentModule.state sm;
  state ← json_loads text;
  if decide (state = ∅) then None
  else Some (XBlockUserState.mk (StudentModule.student sm)
               (StudentModule.module_state_key sm) (Some state)
               (StudentModule.modified sm) scope).

(** A row whose state column holds text that decodes. *)
Definition decodable {value} (json_loads : string → option (gmap string value))
    (sm : StudentModule.t) : Prop :=
  ∃ text state, StudentModule.state sm = Some text ∧
                json_loads text = Some state.

(** ** What the operations leave alone, and their loops turn by turn *)

(** The columns that say whose row it is; no operation of the client
    writes them after the row is created. *)
Definition shape (sm : StudentModule.t)
    : nat * string * CourseKey * UsageKey * string :=
  (StudentModule.id sm, StudentModule.student sm, StudentModule.course_id sm,
   StudentModule.module_state_key sm, StudentModule.module_type sm).

Definition shapes (w : World)
    : list (nat * string * CourseKey * UsageKey * string) :=
  shape <$> student_modules w.

(** What [get_many] does with one row of the query. *)
Definition get_many_turn {value}
    (json_loads : string → option (gmap string value))
    (username : string) (scope : Scope) (fields : option (list string))
    (item : StudentModule.t * UsageKey) : Gen (XBlockUserState.t value) :=
  let '(module, usage_key) := item in
  match StudentModule.state module with
  | None => gen_done
  | Some text =>
      match json_loads text with
      | None => gen_raise JSONDecodeError
      | Some state =>
          if decide (state = ∅) then gen_done else
          gen_yield (XBlockUserState.mk username usage_key
                       (Some match fields with
                             | None => state
                             | Some fields => select_fields fields state
                             end)
                       (StudentModule.modified module) scope)
      end
  end.

(** The text [delete_many] writes to a row, or the exception that computing
    it raises. *)
Definition deleted_text {value} (json_dumps : gmap string value → string)
    (json_loads : string → option (gmap string value))
    (fields : option (list string)) (sm : StudentModule.t) : result string :=
  match fields with
  | None => Ok "{}"
  | Some fields =>
      match StudentModule.state sm with
      | None => Raise TypeError
      | Some text =>
          match json_loads text with
          | None => Raise JSONDecodeError
          | Some current_state =>
              Ok (json_dumps (remove_fields fields current_state))
          end
      end
  end.

(** A history entry [get_history] can turn into a read-model: its state is
    null or text that decodes. *)
Definition history_entry_decodes {value}
    (json_loads : string → option (gmap string value))
    (entry : HistoryEntry.t) : Prop :=
  match HistoryEntry.state entry with
  | None => True
  | Some text => is_Some (json_loads text)
  end.

(** The read-model [get_history] makes of such an entry: a null state and
    the empty dict both read as [None]. *)
Definition history_model {value}
    (json_loads : string → option (gmap string value))
    (username : string) (entry : HistoryEntry.t) : XBlockUserState.t value :=
  XBlockUserState.mk username
    (map_into_course
       (StudentModule.module_state_key (HistoryEntry.csm entry))
       (StudentModule.course_id (HistoryEntry.csm entry)))
    (match HistoryEntry.state entry with
     | None => None
     | Some text =>
         match json_loads text with
         | Some state => if decide (state = ∅) then None else Some state
         | None => None
         end
     end)
    (HistoryEntry.created entry) Scope_user_state.


(** The rows [iter_all_for_block] pages through. *)
Definition block_results (block_key : UsageKey) (w : World)
    : list StudentModule.t :=
  filter (λ sm, StudentModule.module_state_key sm = block_key)
         (order_by_id (student_modules w)).

(** ** A reference JSON codec

    Flat objects whose values are integers, printed the way [json.dumps]
    prints them, as in [{"a": 1, "b": 2}].  In a key, the quote and the backslash
    are escaped; every other character stands for itself.  The codec is an
    instance of the two facts the client relies on, and makes the client
    executable on concrete data. *)

Module MiniJson.
Local Open Scope string_scope.

Definition quote : ascii := "034"%char.
Definition backslash : ascii := "\"%char.

Fixpoint escape (s : string) : string :=
  match s with
  | EmptyString => EmptyString
  | String c s' =>
      if decide (c = quote ∨ c = backslash)
      then String backslash (String c (escape s'))
      else String c (escape s')
  end.

Definition print_Z (z : Z) : string := NilEmpty.string_of_int (Z.to_int z).

Definition print_item (item : string * Z) : string :=
  String quote (escape item.1) +:+ String quote (": " +:+ print_Z item.2).

Fixpoint print_items (items : list (string * Z)) : string :=
  match items with
  | [] => EmptyString
  | [item] => print_item item
  | item :: items => print_item item +:+ ", " +:+ print_items items
  end.

Definition dumps (d : gmap string Z) : string :=
  "{" +:+ print_items (map_to_list d) +:+ "}".

(** The key up to its closing quote, and what follows the quote. *)
Fixpoint read_key (s : string) : option (string * string) :=
  match s with
  | EmptyString => None
  | String c s' =>
      if decide (c = quote) then Some (EmptyString, s')
      else if decide (c = backslash) then
        match s' with
        | EmptyString => None
        | String c' s'' =>
            '(k, rest) ← read_key s''; Some (String c' k, rest)
        end
      else '(k, rest) ← read_key s'; Some (String c k, rest)
  end.

Definition delimiter (c : ascii) : Prop := c = ","%char ∨ c = "}"%char.

Global Instance delimiter_dec c : Decision (delimiter c).
Proof. unfold delimiter. apply _. Defined.

Fixpoint no_delimiter (s : string) : Prop :=
  match s with
  | EmptyString => True
  | String c s' => ¬ delimiter c ∧ no_delimiter s'
  end.

(** The text up to the next [,] or [}]. *)
Fixpoint read_number (s : string) : string * string :=
  match s with
  | EmptyString => (EmptyString, EmptyString)
  | String c s' =>
      if decide (delimiter c) then (EmptyString, s)
      else let '(tok, rest) := read_number s' in (String c tok, rest)
  end.

Definition parse_Z (s : string) : option Z :=
  Z.of_int <$> NilEmpty.int_of_string s.

Fixpoint parse_members (fuel : nat) (s : string) : option (list (string * Z)) :=
  match fuel with
  | 0 => None
  | S fuel =>
      match s with
      | String c s =>
          if decide (c = quote) then
            '(k, s) ← read_key s;
            match s with
            | String ":" (String " " s) =>
                let '(tok, s) := read_number s in
                z ← parse_Z tok;
                match s with
                | "}" => Some [(k, z)]
                | String "," (String " " s) =>
                    items ← parse_members fuel s; Some ((k, z) :: items)
                | _ => None
                end
            | _ => None
            end
          else None
      | EmptyString => None
      end
  end.

(** A later member overrides an earlier one of the same name. *)
Definition loads (s : string) : option (gmap string Z) :=
  match s with
  | "{}" => Some ∅
  | String "{" s' =>
      items ← parse_members (String.length s) s';
      Some (list_to_map (reverse items))
  | _ => None
  end.

End MiniJson.

(** ** Sample data *)

Definition demo_course : CourseKey := "course-v1:edX+DemoX+2026".
Definition K1 : UsageKey := mkUsageKey demo_course "problem" "p1".
Definition K2 : UsageKey := mkUsageKey demo_course "problem" "p2".
Definition client : DjangoXBlockUserStateClient := mkClient None.

Definition demo_row (id : nat) (student : string) (key : UsageKey)
    (state : option (gmap string Z)) (modified : nat) : StudentModule.t :=
  StudentModule.mk id student demo_course key "problem"
    (MiniJson.dumps <$> state) modified.

(** alice has state for [K2] and none for [K1]. *)
Definition demo_world : World :=
  mkWorld [demo_row 1 "alice" K2 (Some {["c" := 3%Z]}) 10]
          ["alice"] [] [] 2 11 [].

(** alice has [{"a": 1}] for [K1]. *)
Definition one_field_world : World :=
  mkWorld [demo_row 1 "alice" K1 (Some {["a" := 1%Z]}) 10]
          ["alice"] [] [] 2 11 [].

(** Another process has committed a row for (alice, [K1]) that this one
    cannot see. *)
Definition collision_world : World :=
  mkWorld [] ["alice"] [("alice", demo_course, K1)] [] 1 10 [].

(** Four learners on [K1]; bob's row has a null state column. *)
Definition null_state_world : World :=
  mkWorld [demo_row 1 "alice" K1 (Some {["a" := 1%Z]}) 10;
           demo_row 2 "bob" K1 None 11;
           demo_row 3 "carol" K1 (Some {["a" := 2%Z]}) 12;
           demo_row 4 "dave" K1 (Some {["a" := 3%Z]}) 13]
          ["alice"; "bob"; "carol"; "dave"] [] [] 5 14 [].

(** The sample calls, on [demo_world], for alice and [K1]. *)

Definition state_a : gmap string Z := {["a" := 1%Z]}.
Definition state_b : gmap string Z := {["b" := 2%Z]}.
Definition state_ab : gmap string Z := {["a" := 1%Z; "b" := 2%Z]}.

Definition demo_set (state : gmap string Z) (w : World) : World :=
  (set MiniJson.dumps MiniJson.loads client "alice" K1 state
       Scope_user_state w).2.

Definition demo_delete (fields : option (list string)) (w : World) : World :=
  (delete MiniJson.dumps MiniJson.loads client "alice" K1 Scope_user_state
          fields w).2.

Definition demo_get (fields : option (list string)) (w : World)
    : result (option (gmap string Z)) :=
  fields_of (get MiniJson.loads client "alice" K1 Scope_user_state fields w).

(** alice has [{"a": 1, "b": 2}] for [K1] and [{"c": 3}] for [K2]. *)
Definition two_field_world : World :=
  mkWorld [demo_row 1 "alice" K1 (Some state_ab) 10;
           demo_row 2 "alice" K2 (Some {["c" := 3%Z]}) 11]
          ["alice"] [] [] 3 12 [].

(** The database refuses every update of alice's row for [K1]. *)
Definition rejected_update_world : World :=
  mkWorld [demo_row 1 "alice" K1 (Some state_a) 10]
          ["alice"] [] [1] 2 11 [].

(** Three learners on [K1], stored out of id order; bob's state has been
    deleted, and every state column decodes. *)
Definition class_world : World :=
  mkWorld [demo_row 3 "carol" K1 (Some {["a" := 2%Z]}) 12;
           demo_row 1 "alice" K1 (Some state_a) 10;
           demo_row 2 "bob" K1 (Some ∅) 11]
          ["alice"; "bob"; "carol"] [] [] 4 13 [].

(** The history of row 1, latest entry first: created with a null state,
    set to [{"b": 2}], deleted, set to [{"a": 1}]; and an entry of another
    row. *)
Definition demo_history : list HistoryEntry.t :=
  [HistoryEntry.mk (demo_row 1 "alice" K1 (Some state_a) 10)
     (Some (MiniJson.dumps state_a)) 10;
   HistoryEntry.mk (demo_row 7 "erin" K1 (Some state_b) 9)
     (Some (MiniJson.dumps state_b)) 9;
   HistoryEntry.mk (demo_row 1 "alice" K1 (Some ∅) 8)
     (Some (MiniJson.dumps ∅)) 8;
   HistoryEntry.mk (demo_row 1 "alice" K1 (Some state_b) 6)
     (Some (MiniJson.dumps state_b)) 6;
   HistoryEntry.mk (demo_row 1 "alice" K1 None 5) None 5].

(** The fields stored for alice in [demo_world], key by key. *)
Definition demo_old (k : UsageKey) : gmap string Z :=
  if decide (k = K2) then {["c" := 3%Z]} else ∅.

(** * Facts *)

(** ** The model at work *)

Example sorted_then_grouped :
  groupby context_key
    (sorted context_key
       [mkUsageKey "course-b" "problem" "p1"; mkUsageKey "course-a" "html" "h1";
        mkUsageKey "course-b" "video" "v1"])
  = [("course-a", [mkUsageKey "course-a" "html" "h1"]);
     ("course-b", [mkUsageKey "course-b" "problem" "p1";
                   mkUsageKey "course-b" "video" "v1"])].
Proof. reflexivity. Qed.

Example five_results_in_pages_of_two :
  Paginator.page_range 5 2 = [1; 2; 3] ∧
  Paginator.page [10; 20; 30; 40; 50] 2 <$> [1; 2; 3]
  = [[10; 20]; [30; 40]; [50]].
Proof. split; reflexivity. Qed.

Example no_results_one_empty_page :
  Paginator.page_range 0 2 = [1] ∧ Paginator.page ([] : list nat) 2 1 = [].
Proof. split; reflexivity. Qed.

Example codec_on_two_fields :
  String.length (MiniJson.dumps state_ab) = 16 ∧
  MiniJson.loads (MiniJson.dumps state_ab) = Some state_ab ∧
  MiniJson.loads "{" = None.
Proof. repeat split; vm_compute; reflexivity. Qed.

(** [set] creates the row of [K1] next to alice's row of [K2]; a second
    [set] updates it in place. *)
Example demo_set_twice :
  StudentModule.id <$> student_modules (demo_set state_a demo_world) = [1; 2] ∧
  stored_state (demo_set state_a demo_world) "alice" K1
  = [Some (MiniJson.dumps state_a)] ∧
  StudentModule.id
    <$> student_modules (demo_set state_b (demo_set state_a demo_world))
  = [1; 2] ∧
  stored_state (demo_set state_b (demo_set state_a demo_world)) "alice" K1
  = [Some (MiniJson.dumps state_ab)] ∧
  stored_state (demo_set state_b (demo_set state_a demo_world)) "alice" K2
  = stored_state demo_world "alice" K2.
Proof. repeat split; vm_compute; reflexivity. Qed.

(** [delete] with fields on a row with a null state column raises. *)
Example delete_fields_on_null_state :
  (delete MiniJson.dumps MiniJson.loads client "bob" K1 Scope_user_state
          (Some ["a"]) null_state_world).1 = Raise TypeError.
Proof. vm_compute. reflexivity. Qed.

(** ** Lists and generators *)

Lemma list_bind_singleton {A B} (g : A → B) (l : list A) :
  (x ← l; [g x]) = g <$> l.
Proof. induction l as [|a l IH]; [done|]. simpl. by f_equal. Qed.

Lemma filter_fmap_stable {A} (P : A → Prop) `{!∀ x, Decision (P x)}
    (f : A → A) (l : list A) :
  (∀ x, x ∈ l → P (f x) ↔ P x) → filter P (f <$> l) = f <$> filter P l.
Proof.
  induction l as [|x l IH]; intros Hf; [done|].
  rewrite fmap_cons, !filter_cons.
  assert (P (f x) ↔ P x) as Hx by (apply Hf; left).
  rewrite IH by (intros y Hy; apply Hf; by right).
  destruct (decide (P (f x))), (decide (P x)); by try tauto.
Qed.

Lemma gen_for_cons {A B} (x : B) (l : list B) (body : B → Gen A) :
  gen_for (x :: l) body = gen_seq (body x) (gen_for l body).
Proof. reflexivity. Qed.

Lemma gen_seq_done_l {A} (g : Gen A) : gen_seq gen_done g = g.
Proof. by destruct g. Qed.

Lemma gen_seq_assoc {A} (g1 g2 g3 : Gen A) :
  gen_seq (gen_seq g1 g2) g3 = gen_seq g1 (gen_seq g2 g3).
Proof.
  destruct g1 as [l1 [e1|]], g2 as [l2 [e2|]], g3 as [l3 e3];
    unfold gen_seq; simpl; try done. by rewrite app_assoc.
Qed.

Lemma gen_for_app {A B} (l1 l2 : list B) (body : B → Gen A) :
  gen_for (l1 ++ l2) body = gen_seq (gen_for l1 body) (gen_for l2 body).
Proof.
  induction l1 as [|x l1 IH].
  - symmetry. apply gen_seq_done_l.
  - rewrite <- app_comm_cons, !gen_for_cons, IH. by rewrite gen_seq_assoc.
Qed.

Lemma gen_for_fmap {A B C} (f : C → B) (l : list C) (body : B → Gen A) :
  gen_for (f <$> l) body = gen_for l (λ x, body (f x)).
Proof.
  induction l as [|x l IH]; [done|].
  by rewrite fmap_cons, !gen_for_cons, IH.
Qed.

(** A loop over pages with a loop over each page inside is one loop over
    the pages laid end to end. *)
Lemma gen_for_concat {A B} (ls : list (list B)) (body : B → Gen A) :
  gen_for ls (λ l, gen_for l body) = gen_for (concat ls) body.
Proof.
  induction ls as [|l ls IH]; [done|].
  rewrite gen_for_cons, IH. simpl. by rewrite gen_for_app.
Qed.

(** An exception that ends a loop was raised by one of its turns. *)
Lemma gen_for_raises {A B} (l : list B) (body : B → Gen A) e :
  (gen_for l body).2 = Some e → ∃ x, x ∈ l ∧ (body x).2 = Some e.
Proof.
  induction l as [|x l IH]; [done|].
  rewrite gen_for_cons. unfold gen_seq. destruct (body x).2 as [e'|] eqn:Hx.
  - rewrite Hx. intros [= ->]. exists x. split; [by left|done].
  - simpl. intros (y & Hy & Hbody)%IH. exists y. split; [by right|done].
Qed.

(** ** The paginator *)

Lemma Paginator_page_take_drop {A} (l : list A) (per_page number : nat) :
  Paginator.page l per_page number
  = take per_page (drop ((number - 1) * per_page) l).
Proof.
  unfold Paginator.page.
  destruct (decide (length l ≤ (number - 1) * per_page + per_page)) as [Hle|Hgt].
  - rewrite !take_ge; [done|rewrite length_drop; lia..].
  - f_equal. lia.
Qed.

Lemma Paginator_pages_prefix {A} (l : list A) (per_page n : nat) :
  concat (Paginator.page l per_page <$> seq 1 n) = take (n * per_page) l.
Proof.
  induction n as [|n IH]; [done|].
  rewrite seq_S, fmap_app, concat_app, IH.
  change (concat (Paginator.page l per_page <$> [1 + n]))
    with (Paginator.page l per_page (1 + n) ++ []).
  rewrite app_nil_r, Paginator_page_take_drop.
  replace ((1 + n - 1) * per_page) with (n * per_page) by lia.
  rewrite take_take_drop. f_equal. lia.
Qed.

(** The pages of a paginator, in page order, are the whole result list:
    nothing is left out and nothing comes twice. *)
Lemma Paginator_pages_cover {A} (l : list A) (per_page : nat) :
  0 < per_page →
  concat (Paginator.page l per_page
            <$> Paginator.page_range (length l) per_page) = l.
Proof.
  intros Hpos. unfold Paginator.page_range.
  rewrite Paginator_pages_prefix. apply take_ge.
  unfold Paginator.num_pages.
  pose proof (Nat.div_mod_eq (Nat.max 1 (length l) + per_page - 1) per_page).
  pose proof (Nat.mod_upper_bound (Nat.max 1 (length l) + per_page - 1) per_page).
  nia.
Qed.

(** ** Field dictionaries *)

Lemma lookup_remove_fields {value} (fields : list string) (d : gmap string value) f :
  remove_fields fields d !! f = if decide (f ∈ fields) then None else d !! f.
Proof.
  unfold remove_fields. revert d.
  induction fields as [|x fields IH]; intros d.
  - destruct (decide (f ∈ [])) as [Hin|_]; [|done]. by apply elem_of_nil in Hin.
  - change (foldl ?g d (x :: fields)) with (foldl g (g d x) fields).
    rewrite IH. cbv beta.
    destruct (decide (f ∈ fields)) as [Hin|Hnin];
      destruct (decide (f ∈ x :: fields)) as [Hin'|Hnin']; try done.
    + exfalso. apply Hnin'. by right.
    + apply elem_of_cons in Hin' as [->|?]; [|done].
      destruct (decide (is_Some (d !! x))) as [_|Hno].
      * apply lookup_delete_eq.
      * by apply eq_None_not_Some.
    + destruct (decide (is_Some (d !! x))); [|done].
      apply lookup_delete_ne. intros ->. apply Hnin'. by left.
Qed.

Lemma select_fields_disjoint {value} (fields : list string) (d : gmap string value) :
  (∀ f, f ∈ fields → d !! f = None) → select_fields fields d = ∅.
Proof.
  unfold select_fields. generalize (∅ : gmap string value) as acc.
  induction fields as [|x fields IH]; intros acc Hd; simpl; [done|].
  rewrite (Hd x) by (by left). apply IH. intros f Hf. apply Hd. by right.
Qed.

(** ** The table *)

Lemma map_into_course_own (k : UsageKey) :
  map_into_course k (context_key k) = k.
Proof. by destruct k. Qed.

(** For one key, the grouped query is the lookup of that key's rows. *)
Lemma _get_student_modules_single username k w :
  _get_student_modules username [k] w
  = (λ sm, (sm, map_into_course (StudentModule.module_state_key sm)
                                (StudentModule.course_id sm)))
      <$> rows_for w username k.
Proof.
  unfold _get_student_modules. simpl. rewrite app_nil_r.
  rewrite list_bind_singleton. f_equal.
  unfold chunked_filter, rows_for. apply list_filter_iff.
  intros sm. unfold row_matches. rewrite list_elem_of_singleton. tauto.
Qed.

Lemma rows_for_matches w username k sm :
  sm ∈ rows_for w username k →
  sm ∈ student_modules w ∧ row_matches username (context_key k) k sm.
Proof. unfold rows_for. rewrite list_elem_of_filter. tauto. Qed.

Lemma rows_for_single_matches w username k sm :
  rows_for w username k = [sm] →
  sm ∈ student_modules w ∧ row_matches username (context_key k) k sm.
Proof. intros H. apply rows_for_matches. rewrite H. apply list_elem_of_here. Qed.

(** Two rows of a table with a primary key and the same id are one row. *)
Lemma primary_key_inj w a b :
  primary_keys_ok w → a ∈ student_modules w → b ∈ student_modules w →
  StudentModule.id a = StudentModule.id b → a = b.
Proof.
  intros [Hnd _]. revert Hnd. generalize (student_modules w) as l.
  induction l as [|x l IH]; intros Hnd Ha Hb Hid; [by apply elem_of_nil in Ha|].
  rewrite fmap_cons in Hnd. apply NoDup_cons in Hnd as [Hx Hnd].
  apply elem_of_cons in Ha as [->|Ha]; apply elem_of_cons in Hb as [->|Hb].
  - done.
  - exfalso. apply Hx. rewrite Hid. by apply list_elem_of_fmap_2.
  - exfalso. apply Hx. rewrite <- Hid. by apply list_elem_of_fmap_2.
  - by apply IH.
Qed.

Lemma updated_rows_for sm0 st w u k :
  primary_keys_ok w → sm0 ∈ student_modules w →
  rows_for (updated (StudentModule.with_state sm0 st) w) u k
  = (λ r, if decide (StudentModule.id r = StudentModule.id sm0)
          then StudentModule.with_modified (StudentModule.with_state sm0 st) (clock w)
          else r) <$> rows_for w u k.
Proof.
  intros Hpk Hin. unfold rows_for, updated. simpl.
  apply filter_fmap_stable. intros r Hr.
  destruct (decide _) as [Hid|]; [|done].
  rewrite (primary_key_inj w r sm0 Hpk Hr Hin Hid). done.
Qed.

Lemma updated_primary_keys_ok sm0 st w :
  primary_keys_ok w →
  primary_keys_ok (updated (StudentModule.with_state sm0 st) w).
Proof.
  intros [Hnd Hlt]. unfold primary_keys_ok, updated. simpl. split.
  - rewrite <- list_fmap_compose.
    rewrite (list_fmap_ext _ StudentModule.id); [exact Hnd|].
    intros i r _. simpl. destruct (decide _) as [Hid|]; [|done].
    by rewrite Hid.
  - apply Forall_fmap. eapply Forall_impl; [exact Hlt|].
    intros r Hr. simpl. destruct (decide _) as [Hid|]; [|done].
    simpl in *. by rewrite <- Hid.
Qed.

Lemma inserted_primary_keys_ok u c k ty st w :
  primary_keys_ok w →
  primary_keys_ok (inserted (StudentModule.mk (next_id w) u c k ty st (clock w)) w).
Proof.
  intros [Hnd Hlt]. split; simpl.
  - rewrite fmap_app. apply NoDup_app. split; [done|]. split.
    + intros i Hi Hi'. apply list_elem_of_singleton in Hi'. simpl in Hi'.
      apply list_elem_of_fmap in Hi as (r & Hr & Hin).
      rewrite Forall_forall in Hlt. specialize (Hlt r Hin). simpl in *. lia.
    + apply NoDup_singleton.
  - apply Forall_app. split.
    + eapply Forall_impl; [exact Hlt|]. intros r Hr. simpl in *. lia.
    + apply Forall_singleton. simpl. lia.
Qed.

(** Writing back the state a row already has changes no state column. *)
Lemma updated_same_state sm0 w u k :
  primary_keys_ok w → sm0 ∈ student_modules w →
  stored_state
    (updated (StudentModule.with_state sm0 (StudentModule.state sm0)) w) u k
  = stored_state w u k.
Proof.
  intros Hpk Hin. unfold stored_state.
  rewrite updated_rows_for by done. rewrite <- list_fmap_compose.
  apply list_fmap_ext. intros i r Hr. simpl.
  destruct (decide _) as [Hid|]; [|done]. simpl.
  apply list_elem_of_lookup_2, rows_for_matches in Hr as [Hr _].
  by rewrite (primary_key_inj w r sm0 Hpk Hr Hin Hid).
Qed.

Lemma save_force_update_ok sm0 st w username :
  settled w username → sm0 ∈ student_modules w →
  save_force_update (StudentModule.with_state sm0 st) w
  = (Ok tt, updated (StudentModule.with_state sm0 st) w).
Proof.
  intros (_ & [_ Hrej] & _) Hin. unfold save_force_update.
  rewrite decide_False by (rewrite Hrej; apply not_elem_of_nil).
  rewrite decide_True; [done|]. apply list_elem_of_fmap.
  exists sm0. split; [reflexivity|exact Hin].
Qed.

(** A forced update of the one row of (u, k) succeeds and leaves its new
    state there. *)
Lemma save_existing sm0 st w u k :
  settled w u → rows_for w u k = [sm0] →
  ∃ w', save_force_update (StudentModule.with_state sm0 st) w = (Ok tt, w') ∧
        settled w' u ∧ stored_state w' u k = [st] ∧ log w' = log w.
Proof.
  intros Hs Hrows.
  destruct (rows_for_single_matches _ _ _ _ Hrows) as [Hin _].
  eexists. split; [by eapply save_force_update_ok|].
  split.
  { destruct Hs as (Hpk & Hni & Hreg).
    split; [by apply updated_primary_keys_ok|done]. }
  split; [|done].
  unfold stored_state. rewrite updated_rows_for by (done || apply Hs).
  rewrite Hrows. simpl. by rewrite decide_True.
Qed.

Lemma get_or_create_fresh u k text ty w :
  settled w u → rows_for w u k = [] →
  let sm := StudentModule.mk (next_id w) u (context_key k) k ty (Some text)
              (clock w) in
  get_or_create (RegisteredUser u) (context_key k) k text ty w
  = (Ok (sm, true), inserted sm w).
Proof.
  intros (_ & [Hcon _] & _) Hrows. unfold get_or_create. simpl.
  unfold rows_for in Hrows. rewrite Hrows.
  rewrite decide_False by (rewrite Hcon; apply not_elem_of_nil). done.
Qed.

Lemma inserted_settled u k text ty w :
  settled w u →
  settled (inserted (StudentModule.mk (next_id w) u (context_key k) k ty
                       (Some text) (clock w)) w) u.
Proof.
  intros (Hpk & Hni & Hreg). split; [|done].
  by apply inserted_primary_keys_ok.
Qed.

Lemma inserted_stored_state u k text ty w :
  rows_for w u k = [] →
  stored_state (inserted (StudentModule.mk (next_id w) u (context_key k) k ty
                            (Some text) (clock w)) w) u k = [Some text].
Proof.
  intros Hrows. unfold stored_state, rows_for, inserted. simpl.
  rewrite filter_app. fold (rows_for w u k). rewrite Hrows. simpl.
  rewrite filter_cons_True by done. done.
Qed.

(** For a registered username, [set_many] stores for that user. *)
Lemma set_many_registered {value} (json_dumps : gmap string value → string)
    json_loads self u items w :
  registered w u →
  set_many json_dumps json_loads self u items Scope_user_state w
  = set_many_loop json_dumps json_loads self (RegisteredUser u) items items w.
Proof.
  intros [Hne Hin]. unfold set_many.
  rewrite decide_False by (by intros []).
  unfold bind.
  assert (User_objects_get u w = (Ok (RegisteredUser u), w)) as Hget.
  { unfold User_objects_get. by rewrite decide_True. }
  destruct (user self) as [[n|]|]; simpl.
  - destruct (decide (n = u)) as [->|]; [done|]. by rewrite Hget.
  - destruct (decide (EmptyString = u)) as [<-|]; [done|]. by rewrite Hget.
  - by rewrite Hget.
Qed.

(** ** The reference codec round-trips *)

Section MiniJsonFacts.
Import MiniJson.
Local Open Scope string_scope.

Lemma MiniJson_append_nil (b : string) : EmptyString +:+ b = b.
Proof. reflexivity. Qed.

Lemma MiniJson_append_cons x (a b : string) :
  String x a +:+ b = String x (a +:+ b).
Proof. reflexivity. Qed.

Lemma MiniJson_append_assoc (a b c : string) :
  (a +:+ b) +:+ c = a +:+ (b +:+ c).
Proof.
  induction a as [|x a IH]; [done|]. rewrite !MiniJson_append_cons. by f_equal.
Qed.

Lemma MiniJson_length_append (a b : string) :
  String.length (a +:+ b) = (String.length a + String.length b)%nat.
Proof.
  induction a as [|x a IH]; [done|].
  rewrite MiniJson_append_cons. simpl. by f_equal.
Qed.

Lemma MiniJson_read_key_escape k rest :
  read_key (escape k +:+ String quote rest) = Some (k, rest).
Proof.
  induction k as [|c k IH]; cbn [escape].
  - rewrite MiniJson_append_nil. cbn [read_key]. by rewrite decide_True.
  - destruct (decide (c = quote ∨ c = backslash)) as [Hc|Hc];
      rewrite !MiniJson_append_cons; cbn [read_key].
    + rewrite decide_False by done. rewrite decide_True by done.
      by rewrite IH.
    + rewrite decide_False by tauto. rewrite decide_False by tauto.
      by rewrite IH.
Qed.

Lemma MiniJson_read_number_token tok c rest :
  no_delimiter tok → delimiter c →
  read_number (tok +:+ String c rest) = (tok, String c rest).
Proof.
  intros Htok Hc. induction tok as [|x tok IH].
  - rewrite MiniJson_append_nil. cbn [read_number]. by rewrite decide_True.
  - destruct Htok as [Hx Htok]. rewrite MiniJson_append_cons.
    cbn [read_number]. rewrite decide_False by done. by rewrite IH.
Qed.

Lemma MiniJson_digits_no_delimiter d :
  no_delimiter (NilEmpty.string_of_uint d).
Proof.
  induction d; simpl; repeat split; try done;
    unfold delimiter; intros [?|?]; discriminate.
Qed.

Lemma MiniJson_print_Z_no_delimiter z : no_delimiter (print_Z z).
Proof.
  unfold print_Z. destruct (Z.to_int z) as [d|d]; simpl.
  - apply MiniJson_digits_no_delimiter.
  - split; [unfold delimiter; intros [?|?]; discriminate|].
    apply MiniJson_digits_no_delimiter.
Qed.

Lemma MiniJson_parse_Z_print_Z z : parse_Z (print_Z z) = Some z.
Proof.
  unfold parse_Z, print_Z. rewrite NilEmpty.isi. simpl.
  by rewrite DecimalZ.of_to.
Qed.

Lemma MiniJson_print_item_eq k z :
  print_item (k, z)
  = String quote (escape k +:+ String quote (String ":" (String " " (print_Z z)))).
Proof. reflexivity. Qed.

Lemma MiniJson_parse_members_item fuel k z c rest :
  delimiter c →
  parse_members (S fuel) (print_item (k, z) +:+ String c rest)
  = match String c rest with
    | "}" => Some [(k, z)]
    | String "," (String " " s) =>
        items ← parse_members fuel s; Some ((k, z) :: items)
    | _ => None
    end.
Proof.
  intros Hc.
  rewrite MiniJson_print_item_eq, MiniJson_append_cons, MiniJson_append_assoc,
    !MiniJson_append_cons.
  cbn [parse_members]. rewrite decide_True by done.
  rewrite MiniJson_read_key_escape.
  cbn [mbind option_bind].
  rewrite (MiniJson_read_number_token _ c rest (MiniJson_print_Z_no_delimiter z) Hc).
  rewrite MiniJson_parse_Z_print_Z. reflexivity.
Qed.

Lemma MiniJson_print_items_cons item item' items :
  print_items (item :: item' :: items)
  = print_item item +:+ String "," (String " " (print_items (item' :: items))).
Proof. reflexivity. Qed.

Lemma MiniJson_parse_members_print items fuel :
  items ≠ [] → (List.length items ≤ fuel)%nat →
  parse_members fuel (print_items items +:+ "}") = Some items.
Proof.
  revert fuel. induction items as [|[k z] items IH]; intros fuel Hne Hlen;
    [done|].
  destruct fuel as [|fuel]; [simpl in Hlen; lia|].
  destruct items as [|item items].
  - cbn [print_items].
    rewrite (MiniJson_parse_members_item fuel k z "}" EmptyString) by (by right). done.
  - rewrite MiniJson_print_items_cons, MiniJson_append_assoc,
      !MiniJson_append_cons.
    rewrite (MiniJson_parse_members_item fuel k z ",") by (by left).
    rewrite IH; [done|done|]. simpl in *. lia.
Qed.

Lemma MiniJson_print_items_length items :
  (List.length items ≤ String.length (print_items items))%nat.
Proof.
  induction items as [|[k z] [|item items] IH]; [simpl; lia|..].
  - cbn [print_items]. rewrite MiniJson_print_item_eq. simpl. lia.
  - rewrite MiniJson_print_items_cons, MiniJson_length_append,
      MiniJson_print_item_eq.
    simpl in *. lia.
Qed.

Lemma MiniJson_loads_members t :
  loads (String "{" (String quote t))
  = items ← parse_members (S (S (String.length t))) (String quote t);
    Some (list_to_map (reverse items)).
Proof. reflexivity. Qed.

(** Decoding what was encoded gives the dict back. *)
Lemma MiniJson_loads_dumps (d : gmap string Z) : loads (dumps d) = Some d.
Proof.
  unfold dumps. destruct (map_to_list d) as [|[k z] items] eqn:Hitems.
  - apply map_to_list_empty_iff in Hitems as ->. done.
  - rewrite MiniJson_append_cons, MiniJson_append_nil.
    assert (∃ t, print_items ((k, z) :: items) +:+ "}" = String quote t)
      as [t Ht].
    { destruct items; [cbn [print_items]|rewrite MiniJson_print_items_cons];
        rewrite MiniJson_print_item_eq, MiniJson_append_cons; eauto. }
    rewrite Ht, MiniJson_loads_members, <- Ht.
    rewrite MiniJson_parse_members_print.
    + cbn [mbind option_bind]. f_equal. symmetry. apply list_to_map_flip.
      rewrite Hitems. apply Permutation_sym, reverse_Permutation.
    + done.
    + pose proof (MiniJson_print_items_length ((k, z) :: items)) as Hlen.
      assert (String.length (String quote t)
              = String.length (print_items ((k, z) :: items)) + 1)%nat as Hq.
      { rewrite <- Ht, MiniJson_length_append. reflexivity. }
      cbn [String.length] in Hq. lia.
Qed.

(** The empty dict is encoded as the tombstone text. *)
Lemma MiniJson_dumps_empty : dumps ∅ = "{}".
Proof. reflexivity. Qed.

End MiniJsonFacts.

(** ** The client *)

Section Facts.
Context {value : Type}.
Variable json_dumps : gmap string value → string.
Variable json_loads : string → option (gmap string value).
Variable USER_STATE_BATCH_SIZE : nat.
Hypothesis loads_dumps : ∀ d, json_loads (json_dumps d) = Some d.
Hypothesis dumps_empty : json_dumps ∅ = "{}".

Local Abbreviation body self s k S :=
  (set_many_body json_dumps json_loads self s [(k, S)] (k, S)).

(** [set] leaves the merge of the new fields over the stored ones. *)
Lemma set_spec self u k (S old : gmap string value) w :
  settled w u → stored_fields json_loads w u k = Some old →
  ∃ w', set json_dumps json_loads self u k S Scope_user_state w = (Ok tt, w') ∧
        settled w' u ∧
        stored_state w' u k = [Some (json_dumps (S ∪ old))] ∧
        log w' = log w.
Proof using Type.
  intros Hs Hold. unfold set.
  rewrite set_many_registered by apply Hs.
  unfold stored_fields, stored_state in Hold.
  destruct (rows_for w u k) as [|sm [|sm' rows]] eqn:Hrows; simpl in Hold.
  - injection Hold as <-. rewrite (right_id_L ∅ (∪)).
    eexists. split.
    + simpl. unfold bind, try_.
      rewrite (get_or_create_fresh u k _ _ w Hs Hrows). done.
    + split; [by apply inserted_settled|].
      split; [by apply inserted_stored_state|done].
  - destruct (save_existing sm (Some (json_dumps (S ∪ old))) w u k Hs Hrows)
      as (w' & Hsave & Hs' & Hst & Hlog).
    exists w'. split; [|done].
    simpl. unfold bind at 1 2, try_ at 1.
    unfold get_or_create. simpl. fold (rows_for w u k). rewrite Hrows.
    destruct (StudentModule.state sm) as [text|] eqn:Htext.
    + rewrite Hold. unfold bind, try_, ret. by rewrite Hsave.
    + injection Hold as <-. unfold bind, try_, ret. by rewrite Hsave.
  - by destruct (StudentModule.state sm), (StudentModule.state sm').
Qed.

(** [delete] without [fields] leaves the tombstone. *)
Lemma delete_all_spec self u k st w :
  settled w u → stored_state w u k = [st] →
  ∃ w', delete json_dumps json_loads self u k Scope_user_state None w
          = (Ok tt, w') ∧
        settled w' u ∧ stored_state w' u k = [Some "{}"].
Proof using Type.
  intros Hs Hst. unfold stored_state in Hst.
  destruct (rows_for w u k) as [|sm [|]] eqn:Hrows; try done.
  destruct (save_existing sm (Some "{}") w u k Hs Hrows)
    as (w' & Hsave & Hs' & Hst' & _).
  exists w'. split; [|done].
  unfold delete, delete_many. rewrite decide_False by (by intros []).
  rewrite _get_student_modules_single, Hrows. simpl.
  unfold bind, ret. by rewrite Hsave.
Qed.

(** [delete] with [fields] leaves the stored fields without the named ones. *)
Lemma delete_fields_spec self u k fields text (current : gmap string value) w :
  settled w u → stored_state w u k = [Some text] →
  json_loads text = Some current →
  ∃ w', delete json_dumps json_loads self u k Scope_user_state (Some fields) w
          = (Ok tt, w') ∧
        settled w' u ∧
        stored_state w' u k = [Some (json_dumps (remove_fields fields current))].
Proof using Type.
  intros Hs Hst Hload. unfold stored_state in Hst.
  destruct (rows_for w u k) as [|sm [|]] eqn:Hrows; try done.
  injection Hst as Hst.
  destruct (save_existing sm (Some (json_dumps (remove_fields fields current)))
              w u k Hs Hrows) as (w' & Hsave & Hs' & Hst' & _).
  exists w'. split; [|done].
  unfold delete, delete_many. rewrite decide_False by (by intros []).
  rewrite _get_student_modules_single, Hrows. simpl.
  rewrite Hst, Hload. unfold bind, ret. by rewrite Hsave.
Qed.

Lemma get_row self username k fields w sm :
  rows_for w username k = [sm] →
  get json_loads self username k Scope_user_state fields w
  = match StudentModule.state sm with
    | None => Raise DoesNotExist
    | Some text =>
        match json_loads text with
        | None => Raise JSONDecodeError
        | Some state =>
            if decide (state = ∅) then Raise DoesNotExist
            else Ok (XBlockUserState.mk username k
                       (Some match fields with
                             | None => state
                             | Some fields => select_fields fields state
                             end)
                       (StudentModule.modified sm) Scope_user_state)
        end
    end.
Proof using Type.
  intros Hrows. unfold get, get_many.
  rewrite decide_False by (by intros []).
  rewrite _get_student_modules_single, Hrows. simpl.
  destruct (rows_for_single_matches _ _ _ _ Hrows) as [_ (_ & -> & ->)].
  rewrite map_into_course_own.
  destruct (StudentModule.state sm) as [text|]; [|done].
  destruct (json_loads text) as [state|]; [|done].
  by destruct (decide (state = ∅)).
Qed.

Lemma get_no_row self username k fields w :
  rows_for w username k = [] →
  get json_loads self username k Scope_user_state fields w = Raise DoesNotExist.
Proof using Type.
  intros Hrows. unfold get, get_many.
  rewrite decide_False by (by intros []).
  by rewrite _get_student_modules_single, Hrows.
Qed.

(** Reading a key whose stored text decodes to a non-empty dict. *)
Lemma get_stored self u k fields text (state : gmap string value) w :
  stored_state w u k = [Some text] → json_loads text = Some state →
  state ≠ ∅ →
  fields_of (get json_loads self u k Scope_user_state fields w)
  = Ok (Some match fields with
             | None => state
             | Some fields => select_fields fields state
             end).
Proof using Type.
  intros Hst Hload Hne. unfold stored_state in Hst.
  destruct (rows_for w u k) as [|sm [|]] eqn:Hrows; try done.
  injection Hst as Hst.
  rewrite (get_row _ _ _ _ _ sm Hrows), Hst, Hload.
  by rewrite decide_False.
Qed.

(** Reading a key that holds no fields. *)
Lemma get_nothing_stored self u k fields w :
  stored_fields json_loads w u k = Some ∅ →
  get json_loads self u k Scope_user_state fields w = Raise DoesNotExist.
Proof using Type.
  unfold stored_fields, stored_state. intros Hst.
  destruct (rows_for w u k) as [|sm [|]] eqn:Hrows.
  - by apply get_no_row.
  - rewrite (get_row _ _ _ _ _ sm Hrows). simpl in Hst.
    destruct (StudentModule.state sm) as [text|]; [|done].
    rewrite Hst. by rewrite decide_True.
  - simpl in Hst. by destruct (StudentModule.state sm), (StudentModule.state t).
Qed.

(** *** One turn of the [set_many] loop, case by case *)

Lemma set_world self u k (S : gmap string value) w :
  (set json_dumps json_loads self u k S Scope_user_state w).2
  = match student_of self u (users w) with
    | Ok s => if is_anonymous s then w else (body self s k S w).2
    | Raise _ => w
    end.
Proof using Type.
  unfold set, set_many. rewrite decide_False by (by intros []).
  unfold bind at 1.
  assert (∀ w, User_objects_get u w
               = (if decide (u ∈ users w) then Ok (RegisteredUser u)
                  else Raise User_DoesNotExist, w)) as Hget.
  { intros w0. unfold User_objects_get. by destruct (decide _). }
  assert ((match user self with
           | Some u0 => if decide (User_username u0 = u) then ret u0
                        else User_objects_get u
           | None => User_objects_get u
           end) w = (student_of self u (users w), w)) as ->.
  { unfold student_of. destruct (user self) as [u0|]; [|apply Hget].
    destruct (decide (User_username u0 = u)); [reflexivity|apply Hget]. }
  destruct (student_of self u (users w)) as [s|e]; [|done].
  destruct (is_anonymous s); [done|]. cbn [set_many_loop]. unfold bind.
  destruct (body self s k S w) as [[[]|] w']; reflexivity.
Qed.

Lemma body_collision self s k S w :
  rows_for w (User_username s) k = [] →
  (User_username s, context_key k, k) ∈ concurrent_rows w →
  body self s k S w
  = (Ok Return, logged (Warn_IntegrityError s (context_key k) k) w).
Proof using Type.
  intros Hrows Hcon. unfold set_many_body, bind, try_, get_or_create.
  unfold rows_for in Hrows. rewrite Hrows. by rewrite decide_True.
Qed.

Lemma body_created self s k S w :
  rows_for w (User_username s) k = [] →
  (User_username s, context_key k, k) ∉ concurrent_rows w →
  body self s k S w
  = (Ok Continue,
     inserted (StudentModule.mk (next_id w) (User_username s) (context_key k) k
                 (block_type k) (Some (json_dumps S)) (clock w)) w).
Proof using Type.
  intros Hrows Hcon. unfold set_many_body, bind, try_, get_or_create.
  unfold rows_for in Hrows. rewrite Hrows. by rewrite decide_False.
Qed.

Lemma body_many self s k S w sm sm' rows :
  rows_for w (User_username s) k = sm :: sm' :: rows →
  body self s k S w = (Raise MultipleObjectsReturned, w).
Proof using Type.
  intros Hrows. unfold set_many_body, bind, try_, get_or_create.
  unfold rows_for in Hrows. by rewrite Hrows.
Qed.

Lemma body_undecodable self s k S w sm :
  rows_for w (User_username s) k = [sm] →
  current_state_of json_loads sm = None →
  body self s k S w = (Raise JSONDecodeError, w).
Proof using Type.
  intros Hrows Hcur. unfold set_many_body, bind, try_, get_or_create.
  unfold rows_for in Hrows. rewrite Hrows. unfold current_state_of in Hcur.
  destruct (StudentModule.state sm) as [text|]; [|done]. by rewrite Hcur.
Qed.

Lemma body_rejected self s k S w sm current :
  rows_for w (User_username s) k = [sm] →
  current_state_of json_loads sm = Some current →
  StudentModule.id sm ∈ rejected_updates w →
  body self s k S w
  = (Ok Continue,
     logged (Warn_AllBlockKeys 1 [k])
       (logged (Warn_IntegrityError s (context_key k) k) w)).
Proof using Type.
  intros Hrows Hcur Hrej. unfold set_many_body, bind, try_, get_or_create.
  unfold rows_for in Hrows. rewrite Hrows. unfold current_state_of in Hcur.
  assert (save_force_update
            (StudentModule.with_state sm (Some (json_dumps (S ∪ current)))) w
          = (Raise IntegrityError, w)) as Hsave.
  { unfold save_force_update. by rewrite decide_True. }
  destruct (StudentModule.state sm) as [text|].
  - rewrite Hcur. unfold ret. by rewrite Hsave.
  - injection Hcur as <-. unfold ret. by rewrite Hsave.
Qed.

Lemma body_updated self s k S w sm current :
  rows_for w (User_username s) k = [sm] →
  current_state_of json_loads sm = Some current →
  StudentModule.id sm ∉ rejected_updates w →
  body self s k S w
  = (Ok Continue,
     updated (StudentModule.with_state sm (Some (json_dumps (S ∪ current)))) w).
Proof using Type.
  intros Hrows Hcur Hrej. unfold set_many_body, bind, try_, get_or_create.
  pose proof (rows_for_single_matches _ _ _ _ Hrows) as [Hin _].
  unfold rows_for in Hrows. rewrite Hrows. unfold current_state_of in Hcur.
  assert (save_force_update
            (StudentModule.with_state sm (Some (json_dumps (S ∪ current)))) w
          = (Ok tt, updated (StudentModule.with_state sm
                               (Some (json_dumps (S ∪ current)))) w)) as Hsave.
  { unfold save_force_update. rewrite decide_False by done.
    rewrite decide_True; [done|]. apply list_elem_of_fmap.
    exists sm. split; [reflexivity|exact Hin]. }
  destruct (StudentModule.state sm) as [text|].
  - rewrite Hcur. unfold ret. by rewrite Hsave.
  - injection Hcur as <-. unfold ret. by rewrite Hsave.
Qed.

(** One turn of the loop, taken twice, stores what it stored the first
    time. *)
Lemma body_twice self s k (S : gmap string value) w :
  primary_keys_ok w →
  let w1 := (body self s k S w).2 in
  let w2 := (body self s k S w1).2 in
  users w1 = users w ∧
  ∀ u' k', stored_state w2 u' k' = stored_state w1 u' k'.
Proof using loads_dumps.
  intros Hpk. cbv zeta.
  destruct (rows_for w (User_username s) k) as [|sm [|sm' rows]] eqn:Hrows.
  - destruct (decide ((User_username s, context_key k, k) ∈ concurrent_rows w))
      as [Hcon|Hcon].
    + rewrite (body_collision _ _ _ _ _ Hrows Hcon). cbn [snd].
      set (w1 := logged _ w).
      rewrite (body_collision self s k S w1 Hrows Hcon).
      split; [reflexivity|intros; reflexivity].
    + rewrite (body_created _ _ _ _ _ Hrows Hcon). cbn [snd].
      set (sm := StudentModule.mk _ _ _ _ _ _ _). set (w1 := inserted sm w).
      assert (rows_for w1 (User_username s) k = [sm]) as Hrows1.
      { unfold rows_for, w1, inserted. simpl. rewrite filter_app.
        fold (rows_for w (User_username s) k). rewrite Hrows. simpl.
        by rewrite filter_cons_True. }
      assert (current_state_of json_loads sm = Some S) as Hcur
        by apply loads_dumps.
      split; [reflexivity|]. intros u' k'.
      destruct (decide (StudentModule.id sm ∈ rejected_updates w1)) as [Hrej|Hrej].
      * rewrite (body_rejected _ _ _ _ _ _ _ Hrows1 Hcur Hrej). reflexivity.
      * rewrite (body_updated _ _ _ _ _ _ _ Hrows1 Hcur Hrej). cbn [snd].
        rewrite (idemp_L (∪) S).
        apply (updated_same_state sm w1).
        -- by apply inserted_primary_keys_ok.
        -- by apply (rows_for_single_matches w1 (User_username s) k).
  - destruct (current_state_of json_loads sm) as [current|] eqn:Hcur.
    2:{ rewrite (body_undecodable _ _ _ _ _ _ Hrows Hcur). cbn [snd].
        rewrite (body_undecodable _ _ _ _ _ _ Hrows Hcur).
        split; [reflexivity|intros; reflexivity]. }
    destruct (decide (StudentModule.id sm ∈ rejected_updates w)) as [Hrej|Hrej].
    + rewrite (body_rejected _ _ _ _ _ _ _ Hrows Hcur Hrej). cbn [snd].
      set (w1 := logged _ (logged _ w)).
      split; [reflexivity|]. intros u' k'.
      rewrite (body_rejected self s k S w1 sm current Hrows Hcur Hrej).
      reflexivity.
    + rewrite (body_updated _ _ _ _ _ _ _ Hrows Hcur Hrej). cbn [snd].
      pose proof (rows_for_single_matches _ _ _ _ Hrows) as [Hin _].
      set (st := Some (json_dumps (S ∪ current))).
      set (w1 := updated (StudentModule.with_state sm st) w).
      set (sm1 := StudentModule.with_modified
                    (StudentModule.with_state sm st) (clock w)).
      assert (rows_for w1 (User_username s) k = [sm1]) as Hrows1.
      { unfold w1. rewrite updated_rows_for by done. rewrite Hrows. simpl.
        by rewrite decide_True. }
      assert (current_state_of json_loads sm1 = Some (S ∪ current)) as Hcur1
        by apply loads_dumps.
      split; [reflexivity|]. intros u' k'.
      rewrite (body_updated _ _ _ _ w1 sm1 _ Hrows1 Hcur1 Hrej). cbn [snd].
      rewrite (assoc_L (∪)), (idemp_L (∪) S).
      apply (updated_same_state sm1 w1).
      * by apply updated_primary_keys_ok.
      * by apply (rows_for_single_matches w1 (User_username s) k).
  - rewrite (body_many _ _ _ _ _ _ _ _ Hrows). cbn [snd].
    rewrite (body_many _ _ _ _ _ _ _ _ Hrows).
    split; [reflexivity|intros; reflexivity].
Qed.

(** A collision on the first key ends the whole call: the rest of the batch
    is not looked at. *)
Lemma set_many_collision self u k (S : gmap string value) rest w :
  registered w u → rows_for w u k = [] →
  (u, context_key k, k) ∈ concurrent_rows w →
  set_many json_dumps json_loads self u ((k, S) :: rest) Scope_user_state w
  = (Ok tt, logged (Warn_IntegrityError (RegisteredUser u) (context_key k) k) w).
Proof using Type.
  intros Hreg Hrows Hcon. rewrite set_many_registered by done.
  cbn [set_many_loop]. unfold bind at 1.
  unfold set_many_body, bind, try_, get_or_create. simpl.
  unfold rows_for in Hrows. rewrite Hrows. by rewrite decide_True.
Qed.

(** *** The bulk scans *)

(** With a positive page size the paginated loop visits the results once
    each, in order. *)
Lemma iter_pages_unpaged (results : list StudentModule.t) scope :
  0 < USER_STATE_BATCH_SIZE →
  iter_pages json_loads USER_STATE_BATCH_SIZE results scope
  = gen_for results (λ sm,
      match StudentModule.state sm with
      | None => gen_raise TypeError
      | Some text =>
          match json_loads text with
          | None => gen_raise JSONDecodeError
          | Some state =>
              if decide (state = ∅) then gen_done else
              gen_yield (XBlockUserState.mk (StudentModule.student sm)
                           (StudentModule.module_state_key sm) (Some state)
                           (StudentModule.modified sm) scope)
          end
      end).
Proof using Type.
  intros Hpos. unfold iter_pages. rewrite decide_False by lia.
  cbv zeta.
  match goal with
  | |- gen_for ?r (λ n, gen_for (@?p n) ?b) = _ =>
      rewrite <- (gen_for_fmap p r (λ page, gen_for page b))
  end.
  by rewrite gen_for_concat, Paginator_pages_cover.
Qed.

Lemma iter_pages_complete (results : list StudentModule.t) scope :
  0 < USER_STATE_BATCH_SIZE → Forall (decodable json_loads) results →
  iter_pages json_loads USER_STATE_BATCH_SIZE results scope
  = (omap (read_model json_loads scope) results, None).
Proof using Type.
  intros Hpos Hdec. rewrite iter_pages_unpaged by done.
  induction Hdec as [|sm results (text & state & Htext & Hload) _ IH];
    [done|].
  rewrite gen_for_cons, IH. cbn [omap list_omap].
  assert (read_model json_loads scope sm
          = if decide (state = ∅) then None
            else Some (XBlockUserState.mk (StudentModule.student sm)
                         (StudentModule.module_state_key sm) (Some state)
                         (StudentModule.modified sm) scope)) as ->.
  { unfold read_model. rewrite Htext. simpl. by rewrite Hload. }
  rewrite Htext. cbn iota beta. rewrite Hload.
  by destruct (decide (state = ∅)).
Qed.

(** When the state column of every row of the course decodes, the scan
    yields the read-models of exactly the rows with non-empty state, each
    once, in id order, whatever the page size. *)
Lemma iter_all_for_course_complete self course_key w :
  0 < USER_STATE_BATCH_SIZE →
  let results := filter (λ sm, StudentModule.course_id sm = course_key)
                        (order_by_id (student_modules w)) in
  Forall (decodable json_loads) results →
  iter_all_for_course json_loads USER_STATE_BATCH_SIZE self course_key None
    Scope_user_state w
  = (omap (read_model json_loads Scope_user_state) results, None).
Proof using Type.
  intros Hpos results Hdec. unfold iter_all_for_course.
  rewrite decide_False by (by intros []).
  by apply iter_pages_complete.
Qed.

End Facts.

(** * Properties of the specification *)

Section Claims.
Context {value : Type}.
Variable json_dumps : gmap string value → string.
Variable json_loads : string → option (gmap string value).
Variable USER_STATE_BATCH_SIZE : nat.
Hypothesis loads_dumps : ∀ d, json_loads (json_dumps d) = Some d.
Hypothesis dumps_empty : json_dumps ∅ = "{}".


(** C2.  For every key [K] and every state mapping [S] (in particular
    [{"a": 1}]): after [set(K, S)] and then [delete(K)] without a fields
    argument, the state column of the record of [K] is the empty-object
    text ["{}"], and [get(K)], with any fields argument, raises
    [DoesNotExist], which is what [get] answers in any world that has no
    record of [K] at all.  The calls run for a registered user, with no
    other process interfering, on a table whose state for [K] decodes. *)
Theorem delete_leaves_tombstone self username K (S old : gmap string value) w :
  settled w username → stored_fields json_loads w username K = Some old →
  let w1 := (set json_dumps json_loads self username K S Scope_user_state w).2 in
  let w2 := (delete json_dumps json_loads self username K Scope_user_state None w1).2 in
  stored_state w2 username K = [Some "{}"] ∧
  ∀ fields,
    get json_loads self username K Scope_user_state fields w2 = Raise DoesNotExist ∧
    ∀ self' w', rows_for w' username K = [] →
      get json_loads self' username K Scope_user_state fields w'
      = get json_loads self username K Scope_user_state fields w2.
Proof using loads_dumps dumps_empty.
  intros Hs Hold.
  destruct (set_spec json_dumps json_loads self username K S old w Hs Hold)
    as (w1 & Hset & Hs1 & Hst1 & _).
  rewrite Hset. cbn [snd].
  destruct (delete_all_spec json_dumps json_loads self username K _ w1 Hs1 Hst1)
    as (w2 & Hdel & Hs2 & Hst2).
  rewrite Hdel. cbn [snd]. split; [done|]. intros fields.
  assert (get json_loads self username K Scope_user_state fields w2 = Raise DoesNotExist)
    as Hget.
  { apply get_nothing_stored. unfold stored_fields.
    rewrite Hst2. rewrite <- dumps_empty. apply loads_dumps. }
  split; [done|]. intros self' w' Hrows. rewrite Hget. by apply get_no_row.
Qed.

(** C3.  [set] merges: with [old] the fields stored for [K] beforehand,
    [set(K, S1)] leaves [S1 ∪ old] (the fields of [S1], and every field of
    [old] that [S1] does not name), a following [set(K, S2)] leaves
    [S2 ∪ (S1 ∪ old)], and [get(K)] returns that mapping.  With nothing
    stored beforehand, [S1 = {"a": 1}] and [S2 = {"b": 2}] this is
    [{"a": 1, "b": 2}]. *)
Theorem set_merges_into_stored_fields self username K
    (S1 S2 old : gmap string value) w :
  settled w username → stored_fields json_loads w username K = Some old →
  let w1 := (set json_dumps json_loads self username K S1 Scope_user_state w).2 in
  let w2 := (set json_dumps json_loads self username K S2 Scope_user_state w1).2 in
  stored_fields json_loads w1 username K = Some (S1 ∪ old) ∧
  stored_fields json_loads w2 username K = Some (S2 ∪ (S1 ∪ old)) ∧
  (S2 ∪ (S1 ∪ old) ≠ ∅ →
   fields_of (get json_loads self username K Scope_user_state None w2)
   = Ok (Some (S2 ∪ (S1 ∪ old)))).
Proof using loads_dumps.
  intros Hs Hold.
  destruct (set_spec json_dumps json_loads self username K S1 old w Hs Hold)
    as (w1 & Hset1 & Hs1 & Hst1 & _).
  rewrite Hset1. cbn [snd].
  assert (stored_fields json_loads w1 username K = Some (S1 ∪ old)) as Hf1.
  { unfold stored_fields. by rewrite Hst1. }
  destruct (set_spec json_dumps json_loads self username K S2 _ w1 Hs1 Hf1)
    as (w2 & Hset2 & Hs2 & Hst2 & _).
  rewrite Hset2. cbn [snd]. split; [done|]. split.
  - unfold stored_fields. by rewrite Hst2.
  - intros Hne.
    exact (get_stored json_loads self username K None _ _ w2 Hst2
             (loads_dumps _) Hne).
Qed.

(** C5.  [delete] with a fields list: after [set(K, S)] over stored fields
    [old] and then [delete(K, fields)], what is left is [S ∪ old] without
    the named fields: a named field is gone, whether or not it was there,
    and every other field is as before.  That mapping is what is
    re-serialized and stored, and [get(K)] returns it.  With nothing stored
    beforehand, [S = {"a": 1, "b": 2}] and [fields = ["a"]] this is
    [{"b": 2}]. *)
Theorem delete_fields_removes_named self username K
    (S old : gmap string value) (fields : list string) w :
  settled w username → stored_fields json_loads w username K = Some old →
  let w1 := (set json_dumps json_loads self username K S Scope_user_state w).2 in
  let w2 := (delete json_dumps json_loads self username K Scope_user_state (Some fields) w1).2 in
  let left_over := remove_fields fields (S ∪ old) in
  (∀ f, left_over !! f = if decide (f ∈ fields) then None else (S ∪ old) !! f) ∧
  stored_state w2 username K = [Some (json_dumps left_over)] ∧
  (left_over ≠ ∅ →
   fields_of (get json_loads self username K Scope_user_state None w2)
   = Ok (Some left_over)).
Proof using loads_dumps.
  intros Hs Hold.
  destruct (set_spec json_dumps json_loads self username K S old w Hs Hold)
    as (w1 & Hset & Hs1 & Hst1 & _).
  rewrite Hset. cbn [snd].
  destruct (delete_fields_spec json_dumps json_loads self username K fields
              _ (S ∪ old) w1 Hs1 Hst1 (loads_dumps _))
    as (w2 & Hdel & Hs2 & Hst2).
  rewrite Hdel. cbn [snd].
  split; [intros f; apply lookup_remove_fields|]. split; [done|].
  intros Hne.
  exact (get_stored json_loads self username K None _ _ w2 Hst2
           (loads_dumps _) Hne).
Qed.

(** C9.  When the stored state of [K] decodes to a non-empty dict and the
    caller's fields share no name with it, [get] returns a read-model whose
    fields are the empty dict, and [get_many] yields exactly that one
    read-model and ends normally: the record is neither left out nor
    reported as missing. *)
Theorem get_may_yield_empty_fields self username K (fields : list string)
    text (state : gmap string value) w :
  stored_state w username K = [Some text] → json_loads text = Some state →
  state ≠ ∅ → (∀ f, f ∈ fields → state !! f = None) →
  fields_of (get json_loads self username K Scope_user_state (Some fields) w) = Ok (Some ∅) ∧
  (get_many json_loads self username [K] Scope_user_state (Some fields) w).2 = None ∧
  XBlockUserState.state
    <$> (get_many json_loads self username [K] Scope_user_state (Some fields) w).1
  = [Some ∅].
Proof using Type.
  intros Hst Hload Hne Hdisj.
  pose proof (get_stored json_loads self username K (Some fields) text state w
                Hst Hload Hne) as Hget.
  cbn iota in Hget.
  rewrite (select_fields_disjoint fields state Hdisj) in Hget. split; [done|].
  unfold stored_state in Hst.
  destruct (rows_for w username K) as [|sm [|]] eqn:Hrows; try done.
  injection Hst as Hst. unfold get_many.
  rewrite decide_False by (by intros []).
  rewrite _get_student_modules_single, Hrows. simpl. rewrite Hst, Hload.
  rewrite decide_False by done. simpl.
  by rewrite (select_fields_disjoint fields state Hdisj).
Qed.

(** C10.  For a key [K] without a record, [set(K, {})] returns normally and
    creates a record whose state column is ["{}"]; [get(K)] then raises
    [DoesNotExist], as it does after a full delete. *)
Theorem set_empty_creates_tombstone self username K w :
  settled w username → rows_for w username K = [] →
  let '(r, w1) := set json_dumps json_loads self username K ∅ Scope_user_state w in
  r = Ok tt ∧
  stored_state w1 username K = [Some "{}"] ∧
  ∀ fields, get json_loads self username K Scope_user_state fields w1 = Raise DoesNotExist.
Proof using loads_dumps dumps_empty.
  intros Hs Hrows.
  assert (stored_fields json_loads w username K = Some ∅) as Hold.
  { unfold stored_fields, stored_state. by rewrite Hrows. }
  destruct (set_spec json_dumps json_loads self username K ∅ ∅ w Hs Hold)
    as (w1 & Hset & Hs1 & Hst1 & _).
  rewrite Hset. rewrite (left_id_L ∅ (∪)), dumps_empty in Hst1.
  split; [done|]. split; [done|]. intros fields.
  apply get_nothing_stored. unfold stored_fields. rewrite Hst1.
  rewrite <- dumps_empty. apply loads_dumps.
Qed.

(** C4.  With any scope other than [Scope.user_state], each of the nine
    public operations raises [ValueError] and does nothing else: the
    reading operations yield nothing before the exception, the writing
    ones leave the world as it was.  (The four generator operations raise
    when first advanced.) *)
Theorem unsupported_scope_raises self username K (block_keys : list UsageKey)
    (state : gmap string value) block_keys_to_state fields history_log
    course_key block_type (scope : Scope) w :
  scope ≠ Scope_user_state →
  get json_loads self username K scope fields w = Raise ValueError ∧
  get_many json_loads self username block_keys scope fields w = ([], Some ValueError) ∧
  set json_dumps json_loads self username K state scope w = (Raise ValueError, w) ∧
  set_many json_dumps json_loads self username block_keys_to_state scope w = (Raise ValueError, w) ∧
  delete json_dumps json_loads self username K scope fields w = (Raise ValueError, w) ∧
  delete_many json_dumps json_loads self username block_keys scope fields w = (Raise ValueError, w) ∧
  get_history json_loads self history_log username K scope w = ([], Some ValueError) ∧
  iter_all_for_block json_loads USER_STATE_BATCH_SIZE self K scope w
    = ([], Some ValueError) ∧
  iter_all_for_course json_loads USER_STATE_BATCH_SIZE self course_key
    block_type scope w = ([], Some ValueError).
Proof using Type.
  intros Hscope.
  unfold get, get_many, set, set_many,
    delete, delete_many, get_history,
    iter_all_for_block, iter_all_for_course.
  rewrite !decide_True by done. done.
Qed.

(** C6.  [get_history] ends with [DoesNotExist] exactly when there is no
    record of (username, K) or the history collaborator has no entry for
    the record; in those cases it yields nothing before the exception; and
    in no case does it end normally without having yielded an entry. *)
Theorem get_history_does_not_exist self history_log username K w :
  let records := rows_for w username K in
  let history_entries :=
    BaseStudentModuleHistory_get_history history_log records in
  let g := get_history json_loads self history_log username K Scope_user_state w in
  (g.2 = Some DoesNotExist ↔ records = [] ∨ history_entries = []) ∧
  (records = [] ∨ history_entries = [] → g = ([], Some DoesNotExist)) ∧
  g ≠ ([], None).
Proof using Type.
  intros sms entries g. subst g. unfold get_history.
  rewrite decide_False by (by intros []).
  rewrite _get_student_modules_single, <- list_fmap_compose.
  rewrite (list_fmap_ext _ id (rows_for w username K)) by done.
  rewrite list_fmap_id. fold sms. fold entries. clearbody entries sms.
  destruct (decide (length sms = 0)) as [Hlen|Hlen].
  { apply nil_length_inv in Hlen.
    split; [|split]; [split|..]; try done. by left. }
  assert (sms ≠ []) as Hsms by (by intros ->).
  destruct (decide (entries = [])) as [Hent|Hent].
  { split; [|split]; [split|..]; try done. by right. }
  split; [|split].
  - split; [|by intros [?|?]].
    intros (entry & _ & Hbody)%gen_for_raises. exfalso.
    destruct (HistoryEntry.state entry) as [text|]; [|done].
    by destruct (json_loads text).
  - by intros [?|?].
  - destruct entries as [|entry entries']; [done|].
    rewrite gen_for_cons. unfold gen_seq.
    destruct (HistoryEntry.state entry) as [text|]; [|done].
    by destruct (json_loads text).
Qed.

(** C8.  [set] is idempotent on what is stored: for every key [K] and state
    mapping [S], on any table with a primary key, a second [set(K, S)]
    right after the first leaves the state column, and so the decoded
    fields, of every record as the first left them.  Nothing is assumed
    about the user, about other processes or about what was stored. *)
Theorem set_idempotent self username K (S : gmap string value) w :
  primary_keys_ok w →
  let w1 := (set json_dumps json_loads self username K S Scope_user_state w).2 in
  let w2 := (set json_dumps json_loads self username K S Scope_user_state w1).2 in
  ∀ u' k',
    stored_state w2 u' k' = stored_state w1 u' k' ∧
    stored_fields json_loads w2 u' k' = stored_fields json_loads w1 u' k'.
Proof using loads_dumps.
  intros Hpk. cbv zeta.
  assert (∀ u' k',
            stored_state
              (set json_dumps json_loads self username K S Scope_user_state
                 (set json_dumps json_loads self username K S Scope_user_state w).2).2 u' k'
            = stored_state (set json_dumps json_loads self username K S Scope_user_state w).2 u' k')
    as Hsame.
  { rewrite !(set_world json_dumps json_loads).
    destruct (student_of self username (users w)) as [s|e] eqn:Hs.
    2:{ by rewrite Hs. }
    destruct (is_anonymous s) eqn:Hanon.
    { by rewrite Hs, Hanon. }
    destruct (body_twice json_dumps json_loads loads_dumps self s K S w Hpk)
      as [Husers Hsame].
    rewrite Husers, Hs, Hanon. exact Hsame. }
  intros u' k'. split; [apply Hsame|].
  unfold stored_fields. by rewrite Hsame.
Qed.

End Claims.

(** C1.  The call [set_many("alice", {K1: {"a": 1}, K2: {"b": 2}})], made
    when another process has just created the row of [K1]: the collision is
    logged and the call returns normally, but the batch ends there, so that
    [K2] has no record and [get(K2)] raises [DoesNotExist].  With the two
    keys in the other order [K2] is stored. *)
Theorem set_many_collision_abandons_batch :
  let state_a : gmap string Z := {["a" := 1%Z]} in
  let state_b : gmap string Z := {["b" := 2%Z]} in
  let '(r, w) :=
    set_many MiniJson.dumps MiniJson.loads client "alice"
      [(K1, state_a); (K2, state_b)] Scope_user_state collision_world in
  let '(r', w') :=
    set_many MiniJson.dumps MiniJson.loads client "alice"
      [(K2, state_b); (K1, state_a)] Scope_user_state collision_world in
  r = Ok tt ∧
  log w = [Warn_IntegrityError (RegisteredUser "alice") demo_course K1] ∧
  stored_state w "alice" K2 = [] ∧
  get MiniJson.loads client "alice" K2 Scope_user_state None w
    = Raise DoesNotExist ∧
  r' = Ok tt ∧
  stored_state w' "alice" K2 = [Some (MiniJson.dumps state_b)].
Proof. vm_compute. repeat split. Qed.

(** C7.  A scan of [demo_course] with page size 2 over four records, three
    of them with non-empty state and one, the second by id, with a null
    state column: the scan yields the read-model of the first record and
    then raises [TypeError]; the two records after the null one, both with
    non-empty state, are never yielded. *)
Theorem iter_all_for_course_stops_at_null_state :
  let results := filter (λ sm, StudentModule.course_id sm = demo_course)
                        (order_by_id (student_modules null_state_world)) in
  length (omap (read_model MiniJson.loads Scope_user_state) results) = 3 ∧
  iter_all_for_course MiniJson.loads 2 client demo_course None
    Scope_user_state null_state_world
  = ([XBlockUserState.mk "alice" K1 (Some {["a" := 1%Z]}) 10 Scope_user_state],
     Some TypeError).
Proof. vm_compute. split; reflexivity. Qed.

(** * The properties on the sample data *)

Lemma demo_world_settled : settled demo_world "alice".
Proof. compute_done. Defined.

Lemma demo_world_nothing_stored :
  stored_fields MiniJson.loads demo_world "alice" K1 = Some ∅.
Proof. reflexivity. Defined.

(** [set(K1, {"a": 1}); delete(K1); get(K1)] *)
Lemma delete_leaves_tombstone_witness :
  settled demo_world "alice" ∧
  stored_state (demo_delete None (demo_set state_a demo_world)) "alice" K1
  = [Some "{}"] ∧
  demo_get None (demo_delete None (demo_set state_a demo_world))
  = Raise DoesNotExist.
Proof.
  destruct (delete_leaves_tombstone MiniJson.dumps MiniJson.loads
              MiniJson_loads_dumps MiniJson_dumps_empty client "alice" K1
              state_a ∅ demo_world demo_world_settled
              demo_world_nothing_stored) as [Hstate Hget].
  split; [exact demo_world_settled|]. split; [exact Hstate|].
  unfold demo_get, demo_delete, demo_set.
  by rewrite (proj1 (Hget None)).
Defined.

(** [set(K1, {"a": 1}); set(K1, {"b": 2}); get(K1)] *)
Lemma set_merges_into_stored_fields_witness :
  settled demo_world "alice" ∧
  demo_get None (demo_set state_b (demo_set state_a demo_world))
  = Ok (Some state_ab).
Proof.
  destruct (set_merges_into_stored_fields MiniJson.dumps MiniJson.loads
              MiniJson_loads_dumps client "alice" K1 state_a state_b ∅
              demo_world demo_world_settled demo_world_nothing_stored)
    as (_ & _ & Hget).
  split; [exact demo_world_settled|].
  unfold demo_get, demo_set. rewrite Hget; [|compute_done].
  compute_done.
Defined.

(** [set(K1, {"a": 1, "b": 2}); delete(K1, fields=["a"]); get(K1)] *)
Lemma delete_fields_removes_named_witness :
  settled demo_world "alice" ∧
  stored_state (demo_delete (Some ["a"]) (demo_set state_ab demo_world))
    "alice" K1 = [Some (MiniJson.dumps state_b)] ∧
  demo_get None (demo_delete (Some ["a"]) (demo_set state_ab demo_world))
  = Ok (Some state_b).
Proof.
  destruct (delete_fields_removes_named MiniJson.dumps MiniJson.loads
              MiniJson_loads_dumps client "alice" K1 state_ab ∅ ["a"]
              demo_world demo_world_settled demo_world_nothing_stored)
    as (_ & Hstate & Hget).
  split; [exact demo_world_settled|]. split.
  - unfold demo_delete, demo_set. rewrite Hstate. compute_done.
  - unfold demo_get, demo_delete, demo_set. rewrite Hget; [|compute_done].
    compute_done.
Defined.

(** [get(K1, fields=["zz"])] where [{"a": 1}] is stored *)
Lemma get_may_yield_empty_fields_witness :
  stored_state one_field_world "alice" K1 = [Some (MiniJson.dumps state_a)] ∧
  MiniJson.loads (MiniJson.dumps state_a) = Some state_a ∧
  demo_get (Some ["zz"]) one_field_world = Ok (Some ∅).
Proof.
  assert (stored_state one_field_world "alice" K1
          = [Some (MiniJson.dumps state_a)]) as Hstate by compute_done.
  assert (MiniJson.loads (MiniJson.dumps state_a) = Some state_a) as Hload
    by compute_done.
  assert (state_a ≠ ∅) as Hne by compute_done.
  assert (∀ f, f ∈ ["zz"] → state_a !! f = None) as Hdisj.
  { intros f Hf. apply list_elem_of_singleton in Hf. subst f. compute_done. }
  split; [exact Hstate|]. split; [exact Hload|].
  exact (proj1 (get_may_yield_empty_fields MiniJson.loads client "alice" K1
                  ["zz"] _ state_a one_field_world Hstate Hload Hne Hdisj)).
Defined.

(** [set(K1, {}); get(K1)] *)
Lemma set_empty_creates_tombstone_witness :
  settled demo_world "alice" ∧ rows_for demo_world "alice" K1 = [] ∧
  stored_state (demo_set ∅ demo_world) "alice" K1 = [Some "{}"] ∧
  demo_get None (demo_set ∅ demo_world) = Raise DoesNotExist.
Proof.
  assert (rows_for demo_world "alice" K1 = []) as Hrows by compute_done.
  pose proof (set_empty_creates_tombstone MiniJson.dumps MiniJson.loads
                MiniJson_loads_dumps MiniJson_dumps_empty client "alice" K1
                demo_world demo_world_settled Hrows) as H.
  split; [exact demo_world_settled|]. split; [exact Hrows|].
  unfold demo_get, demo_set.
  destruct (set MiniJson.dumps MiniJson.loads client "alice" K1 ∅
              Scope_user_state demo_world) as [r w1].
  destruct H as (_ & Hstate & Hget). cbn [snd].
  split; [exact Hstate|]. by rewrite (Hget None).
Defined.

(** Every operation with [Scope.preferences] *)
Lemma unsupported_scope_raises_witness :
  Scope_preferences ≠ Scope_user_state ∧
  get MiniJson.loads client "alice" K1 Scope_preferences None demo_world
  = Raise ValueError ∧
  set MiniJson.dumps MiniJson.loads client "alice" K1 state_a
    Scope_preferences demo_world = (Raise ValueError, demo_world) ∧
  iter_all_for_course MiniJson.loads 2 client demo_course None
    Scope_preferences demo_world = ([], Some ValueError).
Proof.
  assert (Scope_preferences ≠ Scope_user_state) as Hscope by discriminate.
  destruct (unsupported_scope_raises MiniJson.dumps MiniJson.loads 2 client
              "alice" K1 [K1] state_a [(K1, state_a)] None [] demo_course None
              Scope_preferences demo_world Hscope)
    as (Hget & _ & Hset & _ & _ & _ & _ & _ & Hscan).
  split; [exact Hscope|]. split; [exact Hget|]. split; [exact Hset|exact Hscan].
Defined.

(** [set(K1, {"a": 1})] twice *)
Lemma set_idempotent_witness :
  primary_keys_ok demo_world ∧
  stored_state (demo_set state_a (demo_set state_a demo_world)) "alice" K1
  = stored_state (demo_set state_a demo_world) "alice" K1 ∧
  stored_state (demo_set state_a demo_world) "alice" K1
  = [Some (MiniJson.dumps state_a)].
Proof.
  assert (primary_keys_ok demo_world) as Hpk by compute_done.
  split; [exact Hpk|]. split; [|compute_done].
  exact (proj1 (set_idempotent MiniJson.dumps MiniJson.loads
                  MiniJson_loads_dumps client "alice" K1 state_a demo_world
                  Hpk "alice" K1)).
Defined.

(** * Further properties of the client

    What the operations do beyond the properties above: which rows the
    query helper selects, what the readers yield and skip, how [set_many]
    resolves the user and treats a batch, what [delete_many] writes and
    when it raises, what the history reader and the two scans yield, and
    what all of them leave alone. *)

(** ** Sorting and grouping keep the elements *)

Lemma insert_by_elem {A} (key : A → string) (x y : A) (l : list A) :
  y ∈ insert_by key x l ↔ y = x ∨ y ∈ l.
Proof.
  induction l as [|z l IH]; simpl.
  - rewrite list_elem_of_singleton. split; [auto|intros [?|[]%elem_of_nil]; done].
  - destruct (String.leb (key x) (key z)).
    + by rewrite elem_of_cons.
    + rewrite !elem_of_cons, IH. tauto.
Qed.

Lemma sorted_elem {A} (key : A → string) (y : A) (l : list A) :
  y ∈ sorted key l ↔ y ∈ l.
Proof.
  unfold sorted. induction l as [|x l IH]; simpl; [done|].
  rewrite insert_by_elem, elem_of_cons, IH. done.
Qed.

Lemma groupby_sound {A} (key : A → string) (l : list A) k g x :
  (k, g) ∈ groupby key l → x ∈ g → key x = k ∧ x ∈ l.
Proof.
  revert k g. induction l as [|y l IH]; intros k g; simpl.
  - by intros ?%elem_of_nil.
  - destruct (groupby key l) as [|[k' g'] gs] eqn:Hgs.
    + intros [= -> ->]%list_elem_of_singleton Hx.
      apply list_elem_of_singleton in Hx as ->. split; [done|by left].
    + destruct (decide (key y = k')) as [Hk|Hk].
      * intros [[= -> ->]|Hin]%elem_of_cons Hx.
        -- apply elem_of_cons in Hx as [->|Hx]; [split; [done|by left]|].
           destruct (IH k' g') as [? ?]; [by left|done|]. split; [done|by right].
        -- destruct (IH k g) as [? ?]; [by right|done|]. split; [done|by right].
      * intros [[= -> ->]|Hin]%elem_of_cons Hx.
        -- apply list_elem_of_singleton in Hx as ->. split; [done|by left].
        -- destruct (IH k g) as [? ?]; [done|done|]. split; [done|by right].
Qed.

Lemma groupby_complete {A} (key : A → string) (l : list A) x :
  x ∈ l → ∃ g, (key x, g) ∈ groupby key l ∧ x ∈ g.
Proof.
  induction l as [|y l IH]; simpl; [by intros ?%elem_of_nil|].
  intros [->|Hx]%elem_of_cons.
  - destruct (groupby key l) as [|[k' g'] gs].
    + exists [y]. split; [by left|by left].
    + destruct (decide (key y = k')) as [<-|Hk].
      * exists (y :: g'). split; [by left|by left].
      * exists [y]. split; [by left|by left].
  - destruct (IH Hx) as (g & Hg & Hxg).
    destruct (groupby key l) as [|[k' g'] gs]; [by apply elem_of_nil in Hg|].
    destruct (decide (key y = k')) as [Hk|Hk].
    + apply elem_of_cons in Hg as [[= <- <-]|Hg].
      * exists (y :: g). split; [by left|by right].
      * exists g. split; [by right|done].
    + exists g. split; [by right|done].
Qed.

(** The grouped query returns the rows of the user for the requested keys,
    each with the requested key it answers. *)
Lemma _get_student_modules_elem username block_keys w sm k :
  (sm, k) ∈ _get_student_modules username block_keys w
  ↔ k ∈ block_keys ∧ sm ∈ rows_for w username k.
Proof.
  unfold _get_student_modules, rows_for. rewrite list_elem_of_bind.
  setoid_rewrite list_elem_of_filter. split.
  - intros ([c ks] & Hin & Hg). apply list_elem_of_bind in Hin as (sm' & Hin & Hsm).
    apply list_elem_of_singleton in Hin as [= <- ->].
    apply list_elem_of_filter in Hsm as [(Hu & Hc & Hk) Hsm].
    destruct (groupby_sound _ _ _ _ _ Hg Hk) as [Hctx Hkeys].
    apply sorted_elem in Hkeys.
    assert (map_into_course (StudentModule.module_state_key sm)
              (StudentModule.course_id sm) = StudentModule.module_state_key sm)
      as ->.
    { rewrite Hc, <- Hctx. by destruct (StudentModule.module_state_key sm). }
    split; [done|]. split; [|done]. unfold row_matches. by rewrite Hc, <- Hctx.
  - intros (Hk & (Hu & Hc & Hkey) & Hsm).
    destruct (groupby_complete context_key (sorted context_key block_keys) k)
      as (g & Hg & Hkg); [by apply sorted_elem|].
    exists (context_key k, g). split; [|done].
    apply list_elem_of_bind. exists sm. split.
    + apply list_elem_of_singleton. rewrite Hkey, Hc. f_equal. by destruct k.
    + apply list_elem_of_filter. split; [|done]. by rewrite Hkey.
Qed.

(** X1.  [_get_student_modules] yields the pair of a row and a key
    exactly when the key is one of the requested block keys and the row is
    a row of the user for that key: sorting the keys, grouping them by
    course and querying course by course loses no requested key, and brings
    in no row of another user, course or key. *)
Theorem get_student_modules_selects_rows username block_keys w sm k :
  (sm, k) ∈ _get_student_modules username block_keys w
  ↔ k ∈ block_keys ∧ sm ∈ rows_for w username k.
Proof. apply _get_student_modules_elem. Qed.

(** ** What a loop of a generator yields *)


(** In a loop that ends normally every turn ended normally and all it
    yielded was passed on. *)
Lemma gen_for_normal {A B} (l : list B) (body : B → Gen A) x y :
  (gen_for l body).2 = None → x ∈ l → y ∈ (body x).1 →
  y ∈ (gen_for l body).1.
Proof.
  induction l as [|x' l IH]; [by intros _ ?%elem_of_nil|].
  rewrite gen_for_cons. unfold gen_seq. destruct (body x').2 as [e|] eqn:Hx'.
  - by rewrite Hx'.
  - simpl. intros Hnone [->|Hx]%elem_of_cons Hy; apply elem_of_app.
    + by left.
    + right. by apply IH.
Qed.

Lemma gen_for_all_done {A B} (l : list B) (body : B → Gen A) :
  (∀ x, x ∈ l → body x = gen_done) → gen_for l body = gen_done.
Proof.
  induction l as [|x l IH]; intros Hall; [done|].
  rewrite gen_for_cons, (Hall x) by (by left).
  rewrite gen_seq_done_l. apply IH. intros x' Hx'. apply Hall. by right.
Qed.

Lemma lookup_select_fields {value} (fields : list string)
    (state : gmap string value) f :
  select_fields fields state !! f
  = if decide (f ∈ fields) then state !! f else None.
Proof.
  unfold select_fields.
  assert (∀ acc : gmap string value,
            foldl (λ acc field,
                     match state !! field with
                     | Some v => <[field := v]> acc
                     | None => acc
                     end) acc fields !! f
            = if decide (f ∈ fields)
              then match state !! f with Some v => Some v | None => acc !! f end
              else acc !! f) as Hgen.
  { induction fields as [|x fields IH]; intros acc.
    - destruct (decide (f ∈ [])) as [Hin|_]; [by apply elem_of_nil in Hin|done].
    - simpl. rewrite IH.
      destruct (decide (f = x)) as [->|Hne].
      + rewrite (decide_True (P := x ∈ x :: fields)) by (by left).
        destruct (state !! x) as [v|] eqn:Hv.
        * rewrite lookup_insert_eq. by destruct (decide (x ∈ fields)).
        * by destruct (decide (x ∈ fields)).
      + assert (acc' : (match state !! x with
                        | Some v => <[x := v]> acc
                        | None => acc
                        end) !! f = acc !! f).
        { destruct (state !! x); [by rewrite lookup_insert_ne|done]. }
        rewrite acc'.
        destruct (decide (f ∈ fields)) as [Hin|Hnin].
        * by rewrite decide_True by (by right).
        * by rewrite decide_False by (intros [?|?]%elem_of_cons; done). }
  rewrite Hgen, lookup_empty.
  destruct (decide (f ∈ fields)); [|done]. by destruct (state !! f).
Qed.

(** ** Reading *)

Section Reading.
Context {value : Type}.
Variable json_loads : string → option (gmap string value).

Lemma get_many_turns self username block_keys fields w :
  get_many json_loads self username block_keys Scope_user_state fields w
  = gen_for (_get_student_modules username block_keys w)
      (get_many_turn json_loads username Scope_user_state fields).
Proof.
  unfold get_many. rewrite decide_False by (by intros []).
  f_equal.
Qed.

(** X2.  [get] raises [DoesNotExist] in each of the three cases in which
    nothing is stored for the key, whatever fields are asked for: there is
    no row, the row's state column is null, or the row's state is text that
    decodes to the empty dict. *)
Theorem get_raises_when_nothing_stored self username K fields w :
  rows_for w username K = [] ∨
  stored_state w username K = [None] ∨
  (∃ text, stored_state w username K = [Some text] ∧ json_loads text = Some ∅) →
  get json_loads self username K Scope_user_state fields w = Raise DoesNotExist.
Proof.
  intros Hcases. apply get_nothing_stored.
  unfold stored_fields, stored_state in *.
  destruct Hcases as [->|[->|(text & -> & Hload)]]; done.
Qed.

(** X3.  Where the stored state of the key decodes to a non-empty mapping,
    [get] without a fields argument returns the whole mapping, and [get]
    with [fields] returns its restriction to them: a field is in the answer
    exactly when it is both asked for and stored, with its stored value. *)
Theorem get_restricts_to_fields self username K (fields : list string) text
    (state : gmap string value) w :
  stored_state w username K = [Some text] → json_loads text = Some state →
  state ≠ ∅ →
  fields_of (get json_loads self username K Scope_user_state None w)
  = Ok (Some state) ∧
  ∃ selected,
    fields_of (get json_loads self username K Scope_user_state (Some fields) w)
    = Ok (Some selected) ∧
    ∀ f, selected !! f = if decide (f ∈ fields) then state !! f else None.
Proof.
  intros Hst Hload Hne. split.
  - exact (get_stored json_loads self username K None text state w Hst Hload Hne).
  - exists (select_fields fields state). split.
    + exact (get_stored json_loads self username K (Some fields) text state w
               Hst Hload Hne).
    + intros f. apply lookup_select_fields.
Qed.


(** X5.  When [get_many] ends normally, it has yielded a read-model for
    every row of a requested key whose state decodes to a non-empty
    mapping. *)
Theorem get_many_yields_every_stored self username block_keys fields w K sm
    text (state : gmap string value) :
  (get_many json_loads self username block_keys Scope_user_state fields w).2
  = None →
  K ∈ block_keys → sm ∈ rows_for w username K →
  StudentModule.state sm = Some text → json_loads text = Some state →
  state ≠ ∅ →
  XBlockUserState.mk username K
    (Some match fields with
          | None => state
          | Some fields => select_fields fields state
          end)
    (StudentModule.modified sm) Scope_user_state
  ∈ (get_many json_loads self username block_keys Scope_user_state fields w).1.
Proof.
  rewrite get_many_turns. intros Hnormal HK Hsm Htext Hload Hne.
  apply (gen_for_normal _ _ (sm, K)); [done|by apply _get_student_modules_elem|].
  simpl. rewrite Htext, Hload. rewrite decide_False by done.
  apply list_elem_of_here.
Qed.

(** X6.  [get_many] yields nothing and ends normally when every requested
    key has no row, a null state or the empty dict: keys without stored
    fields are skipped, not reported. *)
Theorem get_many_omits_keys_without_fields self username block_keys fields w :
  (∀ k, k ∈ block_keys → stored_fields json_loads w username k = Some ∅) →
  get_many json_loads self username block_keys Scope_user_state fields w
  = ([], None).
Proof.
  intros Hkeys. rewrite get_many_turns. apply gen_for_all_done.
  intros [sm k] Hin. apply _get_student_modules_elem in Hin as [Hk Hsm].
  specialize (Hkeys k Hk). unfold stored_fields, stored_state in Hkeys. simpl.
  destruct (rows_for w username k) as [|sm' [|]] eqn:Hrows.
  - by apply elem_of_nil in Hsm.
  - apply list_elem_of_singleton in Hsm as ->. simpl in Hkeys.
    destruct (StudentModule.state sm') as [text|]; [|done].
    rewrite Hkeys. by rewrite decide_True.
  - simpl in Hkeys.
    by destruct (StudentModule.state sm'), (StudentModule.state t).
Qed.
End Reading.

(** ** Rows keep their identity *)

Lemma shape_id a b : shape a = shape b → StudentModule.id a = StudentModule.id b.
Proof. by intros [=]. Qed.

Lemma shape_row_matches a b u c k :
  shape a = shape b → row_matches u c k a ↔ row_matches u c k b.
Proof. unfold row_matches. intros [= _ -> -> -> _]. done. Qed.

(** A row of the table with the id of [sm], when [sm] is a copy of some row
    of the table, has the shape of [sm]. *)
Lemma same_id_same_shape w sm r :
  primary_keys_ok w → shape sm ∈ shapes w → r ∈ student_modules w →
  StudentModule.id r = StudentModule.id sm → shape r = shape sm.
Proof.
  intros Hpk (r0 & Hshape & Hr0)%list_elem_of_fmap Hr Hid.
  rewrite Hshape.
  by rewrite (primary_key_inj w r r0 Hpk Hr Hr0) by (by rewrite Hid, (shape_id _ _ Hshape)).
Qed.

Lemma updated_shapes sm w :
  primary_keys_ok w → shape sm ∈ shapes w → shapes (updated sm w) = shapes w.
Proof.
  intros Hpk Hsm. unfold shapes, updated. simpl.
  rewrite <- list_fmap_compose. apply list_fmap_ext. intros i r Hr. simpl.
  destruct (decide _) as [Hid|]; [|done].
  symmetry. apply (same_id_same_shape w); [done|done| |done].
  by eapply list_elem_of_lookup_2.
Qed.

Lemma updated_copy_primary_keys_ok sm w :
  primary_keys_ok w → shape sm ∈ shapes w → primary_keys_ok (updated sm w).
Proof.
  intros Hpk Hsm. pose proof (updated_shapes sm w Hpk Hsm) as Hshapes.
  destruct Hpk as [Hnd Hlt]. split.
  - replace (StudentModule.id <$> student_modules (updated sm w))
      with ((λ s, s.1.1.1.1) <$> shapes (updated sm w))
      by (unfold shapes; by rewrite <- list_fmap_compose).
    rewrite Hshapes. unfold shapes. by rewrite <- list_fmap_compose.
  - apply Forall_forall. intros r Hr.
    assert (shape r ∈ shapes w) as (r0 & Hshape & Hr0)%list_elem_of_fmap.
    { rewrite <- Hshapes. by apply list_elem_of_fmap_2. }
    rewrite Forall_forall in Hlt. specialize (Hlt r0 Hr0).
    rewrite (shape_id _ _ Hshape). exact Hlt.
Qed.

Lemma updated_copy_rows_for sm w u k :
  primary_keys_ok w → shape sm ∈ shapes w →
  rows_for (updated sm w) u k
  = (λ r, if decide (StudentModule.id r = StudentModule.id sm)
          then StudentModule.with_modified sm (clock w) else r)
      <$> rows_for w u k.
Proof.
  intros Hpk Hsm. unfold rows_for, updated. simpl.
  apply filter_fmap_stable. intros r Hr.
  destruct (decide _) as [Hid|]; [|done].
  apply shape_row_matches. symmetry.
  by apply (same_id_same_shape w).
Qed.

(** An update leaves alone the state of every key the object does not
    belong to. *)
Lemma updated_other_key sm w u k :
  primary_keys_ok w → shape sm ∈ shapes w →
  ¬ row_matches u (context_key k) k sm →
  stored_state (updated sm w) u k = stored_state w u k.
Proof.
  intros Hpk Hsm Hno. unfold stored_state.
  rewrite updated_copy_rows_for by done. rewrite <- list_fmap_compose.
  apply list_fmap_ext. intros i r Hr. simpl.
  destruct (decide _) as [Hid|]; [|done]. exfalso. apply Hno.
  apply list_elem_of_lookup_2, rows_for_matches in Hr as [Hr Hm].
  apply (shape_row_matches r sm); [|done]. by apply (same_id_same_shape w).
Qed.

Lemma inserted_other_key sm w u k :
  ¬ row_matches u (context_key k) k sm →
  stored_state (inserted sm w) u k = stored_state w u k.
Proof.
  intros Hno. unfold stored_state, rows_for, inserted. simpl.
  rewrite filter_app, filter_cons_False by done. by rewrite app_nil_r.
Qed.

Lemma elem_of_shapes w sm : sm ∈ student_modules w → shape sm ∈ shapes w.
Proof. intros Hsm. by apply list_elem_of_fmap_2. Qed.

(** ** Writing: the user a batch is stored for *)

Section Resolving.
Context {value : Type}.
Variable json_dumps : gmap string value → string.
Variable json_loads : string → option (gmap string value).

(** One turn of the [set_many] loop, case by case. *)
Lemma set_many_body_cases self s items k (S : gmap string value) w :
  set_many_body json_dumps json_loads self s items (k, S) w
  = match rows_for w (User_username s) k with
    | [] =>
        if decide ((User_username s, context_key k, k) ∈ concurrent_rows w)
        then (Ok Return, logged (Warn_IntegrityError s (context_key k) k) w)
        else (Ok Continue,
              inserted (StudentModule.mk (next_id w) (User_username s)
                          (context_key k) k (block_type k)
                          (Some (json_dumps S)) (clock w)) w)
    | [sm] =>
        match current_state_of json_loads sm with
        | None => (Raise JSONDecodeError, w)
        | Some current =>
            let sm' := StudentModule.with_state sm
                         (Some (json_dumps (S ∪ current))) in
            if decide (StudentModule.id sm ∈ rejected_updates w)
            then (Ok Continue,
                  logged (Warn_AllBlockKeys (length items) (items.*1))
                    (logged (Warn_IntegrityError s (context_key k) k) w))
            else (Ok Continue, updated sm' w)
        end
    | _ => (Raise MultipleObjectsReturned, w)
    end.
Proof.
  unfold set_many_body, bind, try_, get_or_create.
  fold (rows_for w (User_username s) k).
  destruct (rows_for w (User_username s) k) as [|sm [|sm' rows]] eqn:Hrows.
  - by destruct (decide _).
  - pose proof (rows_for_single_matches _ _ _ _ Hrows) as [Hin _].
    unfold current_state_of, save_force_update.
    destruct (StudentModule.state sm) as [text|].
    + destruct (json_loads text) as [current|]; [|done]. unfold ret. simpl.
      destruct (decide (StudentModule.id sm ∈ rejected_updates w)); [done|].
      rewrite decide_True; [done|]. by apply list_elem_of_fmap_2.
    + unfold ret. simpl.
      destruct (decide (StudentModule.id sm ∈ rejected_updates w)); [done|].
      rewrite decide_True; [done|]. by apply list_elem_of_fmap_2.
  - done.
Qed.

Lemma student_of_username self username us s :
  student_of self username us = Ok s → User_username s = username.
Proof.
  unfold student_of. destruct (user self) as [u0|].
  - destruct (decide (User_username u0 = username)); [by intros [= <-]|].
    destruct (decide _); by intros [= <-].
  - destruct (decide _); by intros [= <-].
Qed.

Lemma set_many_unfold self username items w :
  set_many json_dumps json_loads self username items Scope_user_state w
  = match student_of self username (users w) with
    | Ok s => if is_anonymous s then (Ok tt, w)
              else set_many_loop json_dumps json_loads self s items items w
    | Raise e => (Raise e, w)
    end.
Proof.
  unfold set_many. rewrite decide_False by (by intros []).
  unfold bind at 1.
  assert (∀ w, User_objects_get username w
               = (if decide (username ∈ users w) then Ok (RegisteredUser username)
                  else Raise User_DoesNotExist, w)) as Hget.
  { intros w0. unfold User_objects_get. by destruct (decide _). }
  assert ((match user self with
           | Some u0 => if decide (User_username u0 = username) then ret u0
                        else User_objects_get username
           | None => User_objects_get username
           end) w = (student_of self username (users w), w)) as ->.
  { unfold student_of. destruct (user self) as [u0|]; [|apply Hget].
    destruct (decide (User_username u0 = username)); [reflexivity|apply Hget]. }
  destruct (student_of self username (users w)) as [s|e]; [|done].
  by destruct (is_anonymous s).
Qed.

Lemma set_many_loop_any_client self self' s items0 items w :
  set_many_loop json_dumps json_loads self s items0 items w
  = set_many_loop json_dumps json_loads self' s items0 items w.
Proof.
  revert w. induction items as [|item items IH]; intros w; [done|].
  cbn [set_many_loop]. unfold bind.
  change (set_many_body json_dumps json_loads self s items0 item)
    with (set_many_body json_dumps json_loads self' s items0 item).
  destruct (set_many_body json_dumps json_loads self' s items0 item w)
    as [[[]|] w']; [apply IH|done|done].
Qed.

(** X7.  For the anonymous user held by the client, [set_many] returns at
    once, whatever the batch: no row is written and nothing is logged. *)
Theorem set_many_for_anonymous_is_no_op items w :
  set_many json_dumps json_loads (mkClient (Some AnonymousUser)) EmptyString
    items Scope_user_state w = (Ok tt, w).
Proof. by rewrite set_many_unfold. Qed.

(** X8.  [set_many] for a username that is not the one of the client's
    user and that no registered user bears raises [User.DoesNotExist] and
    leaves the world as it was. *)
Theorem set_many_unknown_user_raises self username items w :
  username ∉ users w →
  (∀ u0, user self = Some u0 → User_username u0 ≠ username) →
  set_many json_dumps json_loads self username items Scope_user_state w
  = (Raise User_DoesNotExist, w).
Proof.
  intros Hunknown Hself. rewrite set_many_unfold. unfold student_of.
  destruct (user self) as [u0|].
  - rewrite decide_False by (by apply Hself). by rewrite decide_False.
  - by rewrite decide_False.
Qed.

(** X9.  A client constructed with the user object of a registered user
    does in [set_many], for that username, what a client constructed
    without a user does, which looks the user up by name. *)
Theorem set_many_preloaded_user_same_result username items scope w :
  username ∈ users w →
  set_many json_dumps json_loads (mkClient (Some (RegisteredUser username)))
    username items scope w
  = set_many json_dumps json_loads (mkClient None) username items scope w.
Proof.
  intros Hin. destruct (decide (scope = Scope_user_state)) as [->|Hscope].
  - rewrite !set_many_unfold. unfold student_of. simpl.
    rewrite !decide_True by done. simpl. apply set_many_loop_any_client.
  - unfold set_many. by rewrite !decide_True.
Qed.
End Resolving.

(** ** Writing: what a batch leaves alone *)

Section Frame.
Context {value : Type}.
Variable json_dumps : gmap string value → string.
Variable json_loads : string → option (gmap string value).

Lemma set_many_body_keeps self s items k (S : gmap string value) w :
  primary_keys_ok w →
  let w1 := (set_many_body json_dumps json_loads self s items (k, S) w).2 in
  primary_keys_ok w1 ∧ shapes w `prefix_of` shapes w1 ∧
  ∀ u' k', ¬ (u' = User_username s ∧ k' = k) →
           stored_state w1 u' k' = stored_state w u' k'.
Proof.
  intros Hpk. rewrite set_many_body_cases.
  destruct (rows_for w (User_username s) k) as [|sm [|sm' rows]] eqn:Hrows.
  - destruct (decide _); cbn [snd].
    + done.
    + split; [by apply inserted_primary_keys_ok|]. split.
      * unfold shapes, inserted. simpl. rewrite fmap_app. by apply prefix_app_r.
      * intros u' k' Hother. apply inserted_other_key.
        unfold row_matches. simpl. intros (<- & _ & <-). by apply Hother.
  - destruct (current_state_of json_loads sm) as [current|]; [|done].
    cbv zeta. destruct (decide _); cbn [snd]; [done|].
    pose proof (rows_for_single_matches _ _ _ _ Hrows) as [Hin Hm].
    assert (shape (StudentModule.with_state sm
                     (Some (json_dumps (S ∪ current)))) ∈ shapes w) as Hshape
      by (by apply (elem_of_shapes w sm)).
    split; [by apply updated_copy_primary_keys_ok|]. split.
    + by rewrite updated_shapes.
    + intros u' k' Hother. apply updated_other_key; [done|done|].
      destruct Hm as (Hu & _ & Hk). unfold row_matches. simpl.
      intros (<- & _ & <-). apply Hother. by rewrite Hu, Hk.
  - done.
Qed.

Lemma set_many_loop_keeps self s items0 items w :
  primary_keys_ok w →
  let w' := (set_many_loop json_dumps json_loads self s items0 items w).2 in
  primary_keys_ok w' ∧ shapes w `prefix_of` shapes w' ∧
  ∀ u' k', u' ≠ User_username s ∨ k' ∉ items.*1 →
           stored_state w' u' k' = stored_state w u' k'.
Proof.
  revert w. induction items as [|[k S] items IH]; intros w Hpk; [done|].
  cbn [set_many_loop]. unfold bind.
  destruct (set_many_body_keeps self s items0 k S w Hpk) as (Hpk1 & Hpre1 & Hfr1).
  destruct (set_many_body json_dumps json_loads self s items0 (k, S) w)
    as [[[]|e] w1]; cbn [snd] in *.
  - destruct (IH w1 Hpk1) as (Hpk' & Hpre' & Hfr').
    split; [done|]. split; [by etrans|].
    intros u' k' Hother. rewrite Hfr'.
    + apply Hfr1. intros [-> ->]. destruct Hother as [?|Hk]; [done|].
      apply Hk. by left.
    + destruct Hother as [?|Hk]; [by left|]. right. intros ?. apply Hk. by right.
  - split; [done|]. split; [done|].
    intros u' k' Hother. apply Hfr1. intros [-> ->].
    destruct Hother as [?|Hk]; [done|]. apply Hk. by left.
  - split; [done|]. split; [done|].
    intros u' k' Hother. apply Hfr1. intros [-> ->].
    destruct Hother as [?|Hk]; [done|]. apply Hk. by left.
Qed.

(** X10.  However [set_many] ends, it has deleted no row and changed no
    row's id, owner, course, key or type (rows are only appended), ids are
    still a primary key, and the state of every other user and of every key
    outside the batch is what it was. *)
Theorem set_many_keeps_rows self username items scope w :
  primary_keys_ok w →
  let w' := (set_many json_dumps json_loads self username items scope w).2 in
  primary_keys_ok w' ∧
  shapes w `prefix_of` shapes w' ∧
  ∀ u' k', u' ≠ username ∨ k' ∉ items.*1 →
           stored_state w' u' k' = stored_state w u' k'.
Proof.
  intros Hpk. destruct (decide (scope = Scope_user_state)) as [->|Hscope].
  2:{ unfold set_many. by rewrite decide_True. }
  rewrite set_many_unfold.
  destruct (student_of self username (users w)) as [s|e] eqn:Hs; [|done].
  destruct (is_anonymous s); [done|].
  apply student_of_username in Hs as <-.
  by apply set_many_loop_keeps.
Qed.
End Frame.

(** ** Writing: what a batch stores *)

Lemma stored_fields_of_state {value}
    (json_loads : string → option (gmap string value)) w w' u k :
  stored_state w' u k = stored_state w u k →
  stored_fields json_loads w' u k = stored_fields json_loads w u k.
Proof. unfold stored_fields. by intros ->. Qed.

Section Storing.
Context {value : Type}.
Variable json_dumps : gmap string value → string.
Variable json_loads : string → option (gmap string value).
Hypothesis loads_dumps : ∀ d, json_loads (json_dumps d) = Some d.
Hypothesis dumps_empty : json_dumps ∅ = "{}".

Lemma set_many_body_settled self u items k (state old : gmap string value) w :
  settled w u → stored_fields json_loads w u k = Some old →
  ∃ w1, set_many_body json_dumps json_loads self (RegisteredUser u) items
          (k, state) w = (Ok Continue, w1) ∧
        settled w1 u ∧
        stored_state w1 u k = [Some (json_dumps (state ∪ old))] ∧
        log w1 = log w.
Proof using Type.
  intros Hs Hold. rewrite set_many_body_cases. cbn [User_username].
  pose proof Hs as (Hpk & [Hcon Hrej] & Hreg).
  unfold stored_fields, stored_state in Hold.
  destruct (rows_for w u k) as [|sm [|sm' rows]] eqn:Hrows; simpl in Hold.
  - injection Hold as <-. rewrite (right_id_L ∅ (∪)).
    rewrite decide_False by (rewrite Hcon; apply not_elem_of_nil).
    eexists. split; [done|]. split; [by apply inserted_settled|].
    split; [by apply inserted_stored_state|done].
  - assert (current_state_of json_loads sm = Some old) as ->.
    { unfold current_state_of. by destruct (StudentModule.state sm). }
    cbv zeta. rewrite decide_False by (rewrite Hrej; apply not_elem_of_nil).
    pose proof (rows_for_single_matches _ _ _ _ Hrows) as [Hin _].
    eexists. split; [done|]. split.
    { split; [by apply updated_primary_keys_ok|done]. }
    split; [|done]. unfold stored_state.
    rewrite updated_rows_for by done. rewrite Hrows. simpl.
    by rewrite decide_True.
  - by destruct (StudentModule.state sm), (StudentModule.state sm').
Qed.

Lemma set_many_loop_settled self u items0 items
    (old : UsageKey → gmap string value) w :
  settled w u → NoDup items.*1 →
  (∀ k state, (k, state) ∈ items → stored_fields json_loads w u k = Some (old k)) →
  ∃ w', set_many_loop json_dumps json_loads self (RegisteredUser u) items0
          items w = (Ok tt, w') ∧
        settled w' u ∧ log w' = log w ∧
        ∀ k state, (k, state) ∈ items →
          stored_state w' u k = [Some (json_dumps (state ∪ old k))].
Proof using Type.
  revert w. induction items as [|[k state] items IH]; intros w Hs Hnd Hold.
  { exists w. split; [done|]. split; [done|]. split; [done|].
    by intros k state ?%elem_of_nil. }
  rewrite fmap_cons in Hnd. apply NoDup_cons in Hnd as [Hk Hnd].
  destruct (set_many_body_settled self u items0 k state (old k) w Hs)
    as (w1 & Hbody & Hs1 & Hst1 & Hlog1); [apply (Hold k state); by left|].
  pose proof (set_many_body_keeps json_dumps json_loads self (RegisteredUser u)
                items0 k state w (proj1 Hs)) as Hkeeps.
  rewrite Hbody in Hkeeps. destruct Hkeeps as (_ & _ & Hfr1). cbn [snd] in Hfr1.
  destruct (IH w1 Hs1 Hnd) as (w' & Hloop & Hs' & Hlog' & Hst').
  { intros k' state' Hin. rewrite <- (Hold k' state') by (by right).
    apply stored_fields_of_state, Hfr1. intros [_ ->]. apply Hk.
    apply list_elem_of_fmap. by exists (k, state'). }
  pose proof (set_many_loop_keeps json_dumps json_loads self (RegisteredUser u)
                items0 items w1 (proj1 Hs1)) as Hkeeps.
  rewrite Hloop in Hkeeps. destruct Hkeeps as (_ & _ & Hfr'). cbn [snd] in Hfr'.
  exists w'. cbn [set_many_loop]. unfold bind. rewrite Hbody.
  split; [done|]. split; [done|]. split; [by rewrite Hlog'|].
  intros k' state' [[= -> ->]|Hin]%elem_of_cons.
  - rewrite Hfr' by (by right). done.
  - by apply Hst'.
Qed.

(** X11.  For a registered user, with no interfering process, a batch of
    distinct keys whose stored states decode is stored as a whole:
    [set_many] ends normally, logs nothing, and leaves for every key of the
    batch the given fields merged over the old ones, which [get] then
    returns. *)
Theorem set_many_stores_batch self username items
    (old : UsageKey → gmap string value) w :
  settled w username → NoDup items.*1 →
  (∀ k state, (k, state) ∈ items →
     stored_fields json_loads w username k = Some (old k)) →
  ∃ w', set_many json_dumps json_loads self username items Scope_user_state w
          = (Ok tt, w') ∧
        settled w' username ∧ log w' = log w ∧
        ∀ k state, (k, state) ∈ items →
          stored_state w' username k = [Some (json_dumps (state ∪ old k))] ∧
          (state ∪ old k ≠ ∅ →
           fields_of (get json_loads self username k Scope_user_state None w')
           = Ok (Some (state ∪ old k))).
Proof using loads_dumps.
  intros Hs Hnd Hold. rewrite set_many_registered by apply Hs.
  destruct (set_many_loop_settled self username items items old w Hs Hnd Hold)
    as (w' & Hloop & Hs' & Hlog & Hst).
  exists w'. split; [done|]. split; [done|]. split; [done|].
  intros k state Hin. split; [by apply (Hst k state)|]. intros Hne.
  exact (get_stored json_loads self username k None _ _ w' (Hst k state Hin)
           (loads_dumps _) Hne).
Qed.

(** X12.  When the database refuses the UPDATE of the existing row of a key
    with an integrity error, [set_many] logs the two warnings, leaves the
    table as it was and goes on with the rest of the batch. *)
Theorem set_many_update_failure_continues self username k
    (state current : gmap string value) rest sm w :
  registered w username → rows_for w username k = [sm] →
  current_state_of json_loads sm = Some current →
  StudentModule.id sm ∈ rejected_updates w →
  set_many json_dumps json_loads self username ((k, state) :: rest)
    Scope_user_state w
  = set_many_loop json_dumps json_loads self (RegisteredUser username)
      ((k, state) :: rest) rest
      (logged (Warn_AllBlockKeys (length ((k, state) :: rest))
                 (k :: rest.*1))
         (logged (Warn_IntegrityError (RegisteredUser username)
                    (context_key k) k) w)).
Proof using Type.
  intros Hreg Hrows Hcur Hrej. rewrite set_many_registered by done.
  cbn [set_many_loop]. unfold bind at 1. rewrite set_many_body_cases.
  cbn [User_username]. rewrite Hrows, Hcur. cbv zeta.
  by rewrite decide_True.
Qed.

(** X13.  After [delete] without a fields argument, [set(K, S)] stores
    exactly [S]: nothing of the state before the delete comes back, and
    [get] returns [S]. *)
Theorem set_after_delete_starts_afresh self username K st
    (state : gmap string value) w :
  settled w username → stored_state w username K = [st] →
  let w1 := (delete json_dumps json_loads self username K Scope_user_state
                    None w).2 in
  let w2 := (set json_dumps json_loads self username K state
                 Scope_user_state w1).2 in
  stored_state w2 username K = [Some (json_dumps state)] ∧
  (state ≠ ∅ →
   fields_of (get json_loads self username K Scope_user_state None w2)
   = Ok (Some state)).
Proof using loads_dumps dumps_empty.
  intros Hs Hst.
  destruct (delete_all_spec json_dumps json_loads self username K st w Hs Hst)
    as (w1 & Hdel & Hs1 & Hst1).
  rewrite Hdel. cbn [snd].
  assert (stored_fields json_loads w1 username K = Some ∅) as Hf1.
  { unfold stored_fields. rewrite Hst1, <- dumps_empty. apply loads_dumps. }
  destruct (set_spec json_dumps json_loads self username K state ∅ w1 Hs1 Hf1)
    as (w2 & Hset & Hs2 & Hst2 & _).
  rewrite Hset. cbn [snd]. rewrite (right_id_L ∅ (∪)) in Hst2.
  split; [done|]. intros Hne.
  exact (get_stored json_loads self username K None _ _ w2 Hst2
           (loads_dumps _) Hne).
Qed.
End Storing.

(** ** Deleting *)

Lemma save_force_update_cases sm w :
  save_force_update sm w
  = if decide (StudentModule.id sm ∈ rejected_updates w)
    then (Raise IntegrityError, w)
    else if decide (StudentModule.id sm ∈ StudentModule.id <$> student_modules w)
    then (Ok tt, updated sm w)
    else (Raise DatabaseError, w).
Proof. reflexivity. Qed.

Lemma shape_in_ids sm w :
  shape sm ∈ shapes w → StudentModule.id sm ∈ StudentModule.id <$> student_modules w.
Proof.
  intros (r & Hshape & Hr)%list_elem_of_fmap.
  rewrite (shape_id _ _ Hshape). by apply list_elem_of_fmap_2.
Qed.

Lemma list_without_elements {A} (l : list A) : (∀ x, x ∉ l) → l = [].
Proof. destruct l as [|x l]; [done|]. intros H. destruct (H x). by left. Qed.

Lemma remove_fields_twice {value} (fields : list string) (d : gmap string value) :
  remove_fields fields (remove_fields fields d) = remove_fields fields d.
Proof.
  apply map_eq. intros f. rewrite !lookup_remove_fields.
  by destruct (decide (f ∈ fields)).
Qed.

Lemma remove_fields_all {value} (fields : list string) (d : gmap string value) :
  (∀ f, is_Some (d !! f) → f ∈ fields) → remove_fields fields d = ∅.
Proof.
  intros Hall. apply map_eq. intros f.
  rewrite lookup_remove_fields, lookup_empty.
  destruct (decide (f ∈ fields)) as [|Hno]; [done|].
  apply eq_None_not_Some. intros Hf. by apply Hno, Hall.
Qed.

Lemma remove_fields_nil {value} (d : gmap string value) : remove_fields [] d = d.
Proof. reflexivity. Qed.

Section Deleting.
Context {value : Type}.
Variable json_dumps : gmap string value → string.
Variable json_loads : string → option (gmap string value).
Hypothesis loads_dumps : ∀ d, json_loads (json_dumps d) = Some d.
Hypothesis dumps_empty : json_dumps ∅ = "{}".

Lemma delete_many_loop_cons fields sm k rest w :
  delete_many_loop json_dumps json_loads fields ((sm, k) :: rest) w
  = match deleted_text json_dumps json_loads fields sm with
    | Raise e => (Raise e, w)
    | Ok text =>
        if decide (StudentModule.id sm ∈ rejected_updates w)
        then (Raise IntegrityError, w)
        else if decide (StudentModule.id sm
                        ∈ StudentModule.id <$> student_modules w)
        then delete_many_loop json_dumps json_loads fields rest
               (updated (StudentModule.with_state sm (Some text)) w)
        else (Raise DatabaseError, w)
    end.
Proof using Type.
  cbn [delete_many_loop]. unfold bind at 1 2, deleted_text.
  destruct fields as [fields|].
  - destruct (StudentModule.state sm) as [text|]; [|done].
    destruct (json_loads text) as [current|]; [|done].
    unfold ret. rewrite save_force_update_cases. simpl.
    by repeat destruct (decide _).
  - unfold ret. rewrite save_force_update_cases. simpl.
    by repeat destruct (decide _).
Qed.

Lemma delete_many_unfold self username block_keys fields w :
  delete_many json_dumps json_loads self username block_keys Scope_user_state
    fields w
  = delete_many_loop json_dumps json_loads fields
      (_get_student_modules username block_keys w) w.
Proof using Type. unfold delete_many. by rewrite decide_False by (by intros []). Qed.

Lemma delete_many_loop_keeps fields mods w :
  primary_keys_ok w → (∀ sm k, (sm, k) ∈ mods → shape sm ∈ shapes w) →
  let w' := (delete_many_loop json_dumps json_loads fields mods w).2 in
  primary_keys_ok w' ∧ shapes w' = shapes w ∧
  ∀ u' k', (∀ sm k, (sm, k) ∈ mods → ¬ row_matches u' (context_key k') k' sm) →
           stored_state w' u' k' = stored_state w u' k'.
Proof using Type.
  revert w. induction mods as [|[sm k] mods IH]; intros w Hpk Hshapes; [done|].
  rewrite delete_many_loop_cons.
  destruct (deleted_text json_dumps json_loads fields sm) as [text|e]; [|done].
  destruct (decide _); [done|]. destruct (decide _); [|done].
  set (sm' := StudentModule.with_state sm (Some text)).
  assert (shape sm' ∈ shapes w) as Hsm' by (apply (Hshapes sm k); by left).
  destruct (IH (updated sm' w)) as (Hpk' & Hsh' & Hfr').
  { by apply updated_copy_primary_keys_ok. }
  { intros sm0 k0 Hin. rewrite updated_shapes by done.
    apply (Hshapes sm0 k0). by right. }
  split; [done|]. split; [by rewrite Hsh', updated_shapes|].
  intros u' k' Hother. rewrite Hfr'.
  - apply updated_other_key; [done|done|]. apply (Hother sm k). by left.
  - intros sm0 k0 Hin. apply (Hother sm0 k0). by right.
Qed.

(** X14.  However [delete_many] ends, it has added and removed no row and
    changed no row's id, owner, course, key or type, ids are still a
    primary key, and the state of every other user and of every key that
    was not named is what it was. *)
Theorem delete_many_keeps_rows self username block_keys scope fields w :
  primary_keys_ok w →
  let w' := (delete_many json_dumps json_loads self username block_keys scope
               fields w).2 in
  primary_keys_ok w' ∧ shapes w' = shapes w ∧
  ∀ u' k', u' ≠ username ∨ k' ∉ block_keys →
           stored_state w' u' k' = stored_state w u' k'.
Proof using Type.
  intros Hpk. destruct (decide (scope = Scope_user_state)) as [->|Hscope].
  2:{ unfold delete_many. by rewrite decide_True. }
  rewrite delete_many_unfold.
  destruct (delete_many_loop_keeps fields
              (_get_student_modules username block_keys w) w Hpk)
    as (Hpk' & Hsh & Hfr).
  { intros sm k Hin. apply _get_student_modules_elem in Hin as [_ Hsm].
    apply elem_of_shapes. by apply rows_for_matches in Hsm as [? _]. }
  split; [done|]. split; [done|]. intros u' k' Hother. apply Hfr.
  intros sm k Hin Hm. apply _get_student_modules_elem in Hin as [Hk Hsm].
  apply rows_for_matches in Hsm as [_ (Hu & _ & Hkey)].
  destruct Hm as (Hu' & _ & Hkey').
  destruct Hother as [Hne|Hnk]; [apply Hne; congruence|].
  apply Hnk. congruence.
Qed.

Lemma delete_many_of_absent_keys_is_no_op_aux self username block_keys fields w :
  (∀ k, k ∈ block_keys → rows_for w username k = []) →
  delete_many json_dumps json_loads self username block_keys Scope_user_state
    fields w = (Ok tt, w).
Proof using Type.
  intros Habsent. rewrite delete_many_unfold.
  rewrite (list_without_elements (_get_student_modules username block_keys w));
    [done|].
  intros [sm k] Hin. apply _get_student_modules_elem in Hin as [Hk Hsm].
  rewrite (Habsent k Hk) in Hsm. by apply elem_of_nil in Hsm.
Qed.

(** X15.  [delete_many] on keys that have no row does nothing: no row is
    created, nothing is raised, whatever the fields argument. *)
Theorem delete_many_of_absent_keys_is_no_op self username block_keys fields w :
  (∀ k, k ∈ block_keys → rows_for w username k = []) →
  delete_many json_dumps json_loads self username block_keys Scope_user_state
    fields w = (Ok tt, w).
Proof using Type. apply delete_many_of_absent_keys_is_no_op_aux. Qed.

Lemma delete_single self username K fields sm w :
  rows_for w username K = [sm] →
  delete json_dumps json_loads self username K Scope_user_state fields w
  = match deleted_text json_dumps json_loads fields sm with
    | Raise e => (Raise e, w)
    | Ok text =>
        if decide (StudentModule.id sm ∈ rejected_updates w)
        then (Raise IntegrityError, w)
        else (Ok tt, updated (StudentModule.with_state sm (Some text)) w)
    end.
Proof using Type.
  intros Hrows. unfold delete. rewrite delete_many_unfold.
  rewrite _get_student_modules_single, Hrows. cbn [fmap list_fmap].
  rewrite delete_many_loop_cons.
  destruct (deleted_text json_dumps json_loads fields sm) as [text|]; [|done].
  destruct (decide _); [done|].
  rewrite decide_True; [done|].
  apply list_elem_of_fmap_2. by apply (rows_for_single_matches w username K).
Qed.

(** X16.  [delete] with a fields argument on a row whose state column is
    null raises [TypeError] (from [json.loads(None)]) and changes
    nothing. *)
Theorem delete_fields_of_null_state_raises self username K fields w :
  stored_state w username K = [None] →
  delete json_dumps json_loads self username K Scope_user_state (Some fields) w
  = (Raise TypeError, w).
Proof using Type.
  unfold stored_state. intros Hst.
  destruct (rows_for w username K) as [|sm [|]] eqn:Hrows; try done.
  injection Hst as Hst. rewrite (delete_single _ _ _ _ sm) by done.
  unfold deleted_text. by rewrite Hst.
Qed.


(** X18.  Deleting by name every field that is stored leaves the
    empty-object text in the row, as [delete] without a fields argument
    does, and [get] then raises [DoesNotExist]. *)
Theorem delete_every_field_leaves_tombstone self username K fields text
    (current : gmap string value) w :
  settled w username → stored_state w username K = [Some text] →
  json_loads text = Some current →
  (∀ f, is_Some (current !! f) → f ∈ fields) →
  let w1 := (delete json_dumps json_loads self username K Scope_user_state
                    (Some fields) w).2 in
  stored_state w1 username K = [Some "{}"] ∧
  get json_loads self username K Scope_user_state None w1 = Raise DoesNotExist.
Proof using loads_dumps dumps_empty.
  intros Hs Hst Hload Hall.
  destruct (delete_fields_spec json_dumps json_loads self username K fields
              text current w Hs Hst Hload) as (w1 & Hdel & Hs1 & Hst1).
  rewrite Hdel. cbn [snd].
  rewrite (remove_fields_all fields current Hall), dumps_empty in Hst1.
  split; [done|]. apply get_nothing_stored. unfold stored_fields.
  rewrite Hst1, <- dumps_empty. apply loads_dumps.
Qed.

(** X19.  [delete] with an empty list of fields is not [delete] without a
    fields argument: it keeps every stored field (the state is written back
    re-serialized), and [get] returns what it returned before. *)
Theorem delete_no_fields_named_keeps_state self username K text
    (current : gmap string value) w :
  settled w username → stored_state w username K = [Some text] →
  json_loads text = Some current →
  let w1 := (delete json_dumps json_loads self username K Scope_user_state
                    (Some []) w).2 in
  stored_state w1 username K = [Some (json_dumps current)] ∧
  stored_fields json_loads w1 username K = Some current ∧
  (current ≠ ∅ →
   fields_of (get json_loads self username K Scope_user_state None w1)
   = Ok (Some current)).
Proof using loads_dumps.
  intros Hs Hst Hload.
  destruct (delete_fields_spec json_dumps json_loads self username K []
              text current w Hs Hst Hload) as (w1 & Hdel & Hs1 & Hst1).
  rewrite Hdel. cbn [snd]. rewrite remove_fields_nil in Hst1.
  split; [done|]. split.
  - unfold stored_fields. by rewrite Hst1.
  - intros Hne.
    exact (get_stored json_loads self username K None _ _ w1 Hst1
             (loads_dumps _) Hne).
Qed.

(** X20.  [delete] is idempotent on the stored state: with at most one row
    for the key, a second [delete] with the same arguments leaves the state
    of every user and key as the first left it, whatever the fields
    argument and however the first call ended. *)
Theorem delete_idempotent self username K fields w :
  primary_keys_ok w → length (rows_for w username K) ≤ 1 →
  let w1 := (delete json_dumps json_loads self username K Scope_user_state
                    fields w).2 in
  let w2 := (delete json_dumps json_loads self username K Scope_user_state
                    fields w1).2 in
  ∀ u' k', stored_state w2 u' k' = stored_state w1 u' k'.
Proof using loads_dumps.
  intros Hpk Hlen. cbv zeta.
  destruct (rows_for w username K) as [|sm [|sm' rows]] eqn:Hrows;
    [|clear Hlen|simpl in Hlen; lia].
  { assert (delete json_dumps json_loads self username K Scope_user_state
              fields w = (Ok tt, w)) as Hdel.
    { unfold delete. apply delete_many_of_absent_keys_is_no_op_aux.
      intros k ->%list_elem_of_singleton. done. }
    by rewrite Hdel; cbn [snd]; rewrite Hdel. }
  rewrite (delete_single _ _ _ _ sm w Hrows).
  destruct (deleted_text json_dumps json_loads fields sm) as [text|e] eqn:Htext; cbn [snd].
  2:{ rewrite (delete_single _ _ _ _ sm w Hrows), Htext. done. }
  destruct (decide (StudentModule.id sm ∈ rejected_updates w)) as [Hrej|Hrej];
    cbn [snd].
  { rewrite (delete_single _ _ _ _ sm w Hrows), Htext.
    by rewrite decide_True. }
  pose proof (rows_for_single_matches _ _ _ _ Hrows) as [Hin _].
  set (sm0 := StudentModule.with_state sm (Some text)).
  set (w1 := updated sm0 w).
  set (sm1 := StudentModule.with_modified sm0 (clock w)).
  assert (rows_for w1 username K = [sm1]) as Hrows1.
  { unfold w1, sm0. rewrite updated_rows_for by done. rewrite Hrows. simpl.
    by rewrite decide_True. }
  assert (deleted_text json_dumps json_loads fields sm1 = Ok text) as Htext1.
  { unfold deleted_text in *. destruct fields as [fields|]; [|done].
    destruct (StudentModule.state sm) as [text0|]; [|done].
    destruct (json_loads text0) as [current|]; [|done].
    injection Htext as <-. simpl. rewrite loads_dumps.
    by rewrite remove_fields_twice. }
  intros u' k'. rewrite (delete_single _ _ _ _ sm1 w1 Hrows1), Htext1.
  rewrite decide_False by done. cbn [snd].
  apply (updated_same_state sm1 w1).
  - by apply updated_primary_keys_ok.
  - by apply (rows_for_single_matches w1 username K).
Qed.
End Deleting.

(** ** Deleting everything *)

Section Tombstones.
Context {value : Type}.
Variable json_dumps : gmap string value → string.
Variable json_loads : string → option (gmap string value).
Hypothesis loads_dumps : ∀ d, json_loads (json_dumps d) = Some d.
Hypothesis dumps_empty : json_dumps ∅ = "{}".

Lemma delete_many_loop_tombstones mods w :
  primary_keys_ok w → rejected_updates w = [] →
  (∀ sm k, (sm, k) ∈ mods → shape sm ∈ shapes w) →
  ∃ w', delete_many_loop json_dumps json_loads None mods w = (Ok tt, w') ∧
        ∀ u k, stored_state w' u k
               = (λ r, if decide (StudentModule.id r
                                  ∈ (λ m, StudentModule.id m.1) <$> mods)
                       then Some "{}" else StudentModule.state r)
                   <$> rows_for w u k.
Proof using Type.
  revert w. induction mods as [|[sm k0] mods IH]; intros w Hpk Hrej Hshapes.
  { exists w. split; [done|]. intros u k. unfold stored_state.
    apply list_fmap_ext. intros i r _.
    rewrite decide_False; [done|]. apply not_elem_of_nil. }
  rewrite delete_many_loop_cons. cbn [deleted_text].
  rewrite decide_False by (rewrite Hrej; apply not_elem_of_nil).
  assert (shape sm ∈ shapes w) as Hsm by (apply (Hshapes sm k0); by left).
  rewrite decide_True by (by apply shape_in_ids).
  set (sm' := StudentModule.with_state sm (Some "{}")).
  destruct (IH (updated sm' w)) as (w' & Hloop & Hst).
  { by apply updated_copy_primary_keys_ok. }
  { done. }
  { intros sm0 k Hin. rewrite updated_shapes by done.
    apply (Hshapes sm0 k). by right. }
  exists w'. split; [done|]. intros u k. rewrite Hst.
  rewrite updated_copy_rows_for by done. rewrite <- list_fmap_compose.
  apply list_fmap_ext. intros i r _. simpl.
  destruct (decide (StudentModule.id r = StudentModule.id sm)) as [Hid|Hid].
  - simpl. rewrite (decide_True (P := StudentModule.id r ∈ _ :: _))
      by (rewrite Hid; by left).
    by destruct (decide _).
  - destruct (decide (StudentModule.id r ∈ _ <$> mods)) as [Hin|Hnin].
    + by rewrite decide_True by (by right).
    + by rewrite decide_False by (intros [?|?]%elem_of_cons; done).
Qed.

(** X21.  When the database refuses no update, [delete_many] without a
    fields argument ends normally and leaves the empty-object text in every
    row of every requested key, whatever the row held before (a null state,
    text that does not decode); [get_many] on those keys then yields
    nothing. *)
Theorem delete_many_tombstones_every_key self username block_keys w :
  primary_keys_ok w → rejected_updates w = [] →
  ∃ w', delete_many json_dumps json_loads self username block_keys
          Scope_user_state None w = (Ok tt, w') ∧
        (∀ k, k ∈ block_keys →
           stored_state w' username k
           = (λ _, Some "{}") <$> rows_for w username k) ∧
        ∀ fields,
          get_many json_loads self username block_keys Scope_user_state
            fields w' = ([], None).
Proof using loads_dumps dumps_empty.
  intros Hpk Hrej. rewrite delete_many_unfold.
  destruct (delete_many_loop_tombstones
              (_get_student_modules username block_keys w) w Hpk Hrej)
    as (w' & Hloop & Hst).
  { intros sm k Hin. apply _get_student_modules_elem in Hin as [_ Hsm].
    apply elem_of_shapes. by apply rows_for_matches in Hsm as [? _]. }
  assert (∀ k, k ∈ block_keys →
            stored_state w' username k
            = (λ _, Some "{}") <$> rows_for w username k) as Hkeys.
  { intros k Hk. rewrite Hst. apply list_fmap_ext. intros i r Hr. simpl.
    rewrite decide_True; [done|]. apply list_elem_of_fmap.
    exists (r, k). split; [done|]. apply _get_student_modules_elem.
    split; [done|]. by eapply list_elem_of_lookup_2. }
  exists w'. split; [done|]. split; [done|]. intros fields.
  rewrite get_many_turns. apply gen_for_all_done. intros [sm k] Hin.
  apply _get_student_modules_elem in Hin as [Hk Hsm].
  assert (StudentModule.state sm ∈ stored_state w' username k) as Hstate
    by (by apply list_elem_of_fmap_2).
  rewrite (Hkeys k Hk) in Hstate.
  apply list_elem_of_fmap in Hstate as (_ & Hstate & _). simpl.
  rewrite Hstate, <- dumps_empty, loads_dumps. by rewrite decide_True.
Qed.
End Tombstones.

(** ** The history reader *)

Section History.
Context {value : Type}.
Variable json_loads : string → option (gmap string value).

(** X22.  When the record exists and has history entries, all with a null
    state or text that decodes, [get_history] ends normally and yields one
    read-model per entry of the record, in the order of the log (latest
    first): each with the username of the call, the key of the entry's row
    and the entry's creation time, and with [None] for a null or empty
    state. *)
Theorem get_history_yields_every_entry self history_log username K w :
  let entries := BaseStudentModuleHistory_get_history history_log
                   (rows_for w username K) in
  rows_for w username K ≠ [] → entries ≠ [] →
  Forall (history_entry_decodes json_loads) entries →
  get_history json_loads self history_log username K Scope_user_state w
  = (history_model json_loads username <$> entries, None).
Proof.
  intros entries Hrows Hentries Hdec. unfold get_history.
  rewrite decide_False by (by intros []).
  rewrite _get_student_modules_single, <- list_fmap_compose.
  rewrite (list_fmap_ext _ id (rows_for w username K)) by done.
  rewrite list_fmap_id. fold entries.
  rewrite decide_False by (by intros ?%nil_length_inv).
  rewrite decide_False by done. clear Hentries. clearbody entries.
  induction Hdec as [|entry entries Hentry _ IH]; [done|].
  rewrite gen_for_cons, IH, fmap_cons. unfold history_model at 2.
  unfold history_entry_decodes in Hentry.
  destruct (HistoryEntry.state entry) as [text|]; [|done].
  destruct Hentry as [state Hload]. by rewrite Hload.
Qed.
End History.

(** ** The bulk scans *)


Section Scans.
Context {value : Type}.
Variable json_loads : string → option (gmap string value).


Lemma iter_all_for_block_results B self block_key w :
  iter_all_for_block json_loads B self block_key Scope_user_state w
  = iter_pages json_loads B (block_results block_key w) Scope_user_state.
Proof. unfold iter_all_for_block. by rewrite decide_False by (by intros []). Qed.


(** X23.  With a positive page size, when the state of every row of the
    block decodes, [iter_all_for_block] ends normally and yields, in id
    order and each once, the read-models of the rows of the block whose
    state is not the empty dict. *)
Theorem iter_all_for_block_complete B self block_key w :
  0 < B → Forall (decodable json_loads) (block_results block_key w) →
  iter_all_for_block json_loads B self block_key Scope_user_state w
  = (omap (read_model json_loads Scope_user_state) (block_results block_key w),
     None).
Proof.
  intros HB Hdec. rewrite iter_all_for_block_results.
  by apply iter_pages_complete.
Qed.

(** X24.  What the two bulk scans yield, and how they end, does not depend
    on the page size, as long as it is positive. *)
Theorem scan_does_not_depend_on_page_size B1 B2 self course_key block_type
    block_key scope w :
  0 < B1 → 0 < B2 →
  iter_all_for_course json_loads B1 self course_key block_type scope w
  = iter_all_for_course json_loads B2 self course_key block_type scope w ∧
  iter_all_for_block json_loads B1 self block_key scope w
  = iter_all_for_block json_loads B2 self block_key scope w.
Proof.
  intros H1 H2. unfold iter_all_for_course, iter_all_for_block.
  destruct (decide (scope ≠ Scope_user_state)); [done|].
  by rewrite !(iter_pages_unpaged json_loads B1),
    !(iter_pages_unpaged json_loads B2) by done.
Qed.


End Scans.

(** * The further properties on the sample data *)

Lemma one_field_world_settled : settled one_field_world "alice".
Proof. compute_done. Defined.

Lemma one_field_world_stored :
  stored_state one_field_world "alice" K1 = [Some (MiniJson.dumps state_a)].
Proof. compute_done. Defined.

Lemma state_a_round_trip :
  MiniJson.loads (MiniJson.dumps state_a) = Some state_a.
Proof. compute_done. Defined.

Lemma two_field_world_primary_keys_ok : primary_keys_ok two_field_world.
Proof. compute_done. Defined.

(** [get(K1)] for bob, whose row has a null state *)
Lemma get_raises_when_nothing_stored_witness :
  stored_state null_state_world "bob" K1 = [None] ∧
  get MiniJson.loads client "bob" K1 Scope_user_state None null_state_world
  = Raise DoesNotExist.
Proof.
  assert (stored_state null_state_world "bob" K1 = [None]) as Hstate
    by compute_done.
  split; [exact Hstate|].
  apply get_raises_when_nothing_stored. right. left. exact Hstate.
Defined.

(** [get(K1)] and [get(K1, fields=["a", "zz"])] where [{"a": 1, "b": 2}] is
    stored *)
Lemma get_restricts_to_fields_witness :
  stored_state two_field_world "alice" K1 = [Some (MiniJson.dumps state_ab)] ∧
  MiniJson.loads (MiniJson.dumps state_ab) = Some state_ab ∧
  state_ab ≠ ∅ ∧
  demo_get None two_field_world = Ok (Some state_ab) ∧
  ∃ selected,
    demo_get (Some ["a"; "zz"]) two_field_world = Ok (Some selected) ∧
    ∀ f, selected !! f
         = if decide (f ∈ ["a"; "zz"]) then state_ab !! f else None.
Proof.
  assert (stored_state two_field_world "alice" K1
          = [Some (MiniJson.dumps state_ab)]) as Hstate by compute_done.
  assert (MiniJson.loads (MiniJson.dumps state_ab) = Some state_ab) as Hload
    by compute_done.
  assert (state_ab ≠ ∅) as Hne by compute_done.
  split; [exact Hstate|]. split; [exact Hload|]. split; [exact Hne|].
  exact (get_restricts_to_fields MiniJson.loads client "alice" K1 ["a"; "zz"]
           _ state_ab two_field_world Hstate Hload Hne).
Defined.

(** [get_many([K1, K2])] yields alice's state for [K2] *)
Lemma get_many_yields_every_stored_witness :
  (get_many MiniJson.loads client "alice" [K1; K2] Scope_user_state None
     two_field_world).2 = None ∧
  XBlockUserState.mk "alice" K2 (Some {["c" := 3%Z]}) 11 Scope_user_state
  ∈ (get_many MiniJson.loads client "alice" [K1; K2] Scope_user_state None
       two_field_world).1.
Proof.
  assert ((get_many MiniJson.loads client "alice" [K1; K2] Scope_user_state
             None two_field_world).2 = None) as Hnormal by compute_done.
  split; [exact Hnormal|].
  apply (get_many_yields_every_stored MiniJson.loads client "alice" [K1; K2]
           None two_field_world K2
           (demo_row 2 "alice" K2 (Some {["c" := 3%Z]}) 11)
           (MiniJson.dumps {["c" := 3%Z]}) {["c" := 3%Z]} Hnormal).
  - compute_done.
  - vm_compute. constructor.
  - reflexivity.
  - compute_done.
  - compute_done.
Defined.

(** [get_many([K1, K2])] for bob: a null state for [K1], no row for [K2] *)
Lemma get_many_omits_keys_without_fields_witness :
  stored_fields MiniJson.loads null_state_world "bob" K1 = Some ∅ ∧
  stored_fields MiniJson.loads null_state_world "bob" K2 = Some ∅ ∧
  get_many MiniJson.loads client "bob" [K1; K2] Scope_user_state None
    null_state_world = ([], None).
Proof.
  assert (stored_fields MiniJson.loads null_state_world "bob" K1 = Some ∅)
    as H1 by reflexivity.
  assert (stored_fields MiniJson.loads null_state_world "bob" K2 = Some ∅)
    as H2 by reflexivity.
  split; [exact H1|]. split; [exact H2|].
  apply get_many_omits_keys_without_fields. intros k Hk.
  apply elem_of_cons in Hk as [->|Hk]; [exact H1|].
  apply list_elem_of_singleton in Hk as ->. exact H2.
Defined.

(** [set_many] for a username nobody bears *)
Lemma set_many_unknown_user_raises_witness :
  ("mallory" ∉ users demo_world) ∧ user client = None ∧
  set_many MiniJson.dumps MiniJson.loads client "mallory" [(K1, state_a)]
    Scope_user_state demo_world = (Raise User_DoesNotExist, demo_world).
Proof.
  assert ("mallory" ∉ users demo_world) as Hunknown by compute_done.
  split; [exact Hunknown|]. split; [reflexivity|].
  apply set_many_unknown_user_raises; [exact Hunknown|].
  intros u0 Hu0. discriminate Hu0.
Defined.

(** [set_many] by a client that holds alice's user object *)
Lemma set_many_preloaded_user_same_result_witness :
  "alice" ∈ users demo_world ∧
  set_many MiniJson.dumps MiniJson.loads
    (mkClient (Some (RegisteredUser "alice"))) "alice" [(K1, state_a)]
    Scope_user_state demo_world
  = set_many MiniJson.dumps MiniJson.loads client "alice" [(K1, state_a)]
      Scope_user_state demo_world.
Proof.
  assert ("alice" ∈ users demo_world) as Hin by compute_done.
  split; [exact Hin|].
  exact (set_many_preloaded_user_same_result MiniJson.dumps MiniJson.loads
           "alice" [(K1, state_a)] Scope_user_state demo_world Hin).
Defined.

(** [set_many({K1: {"a": 1}})] leaves alice's state for [K2] alone *)
Lemma set_many_keeps_rows_witness :
  primary_keys_ok demo_world ∧
  stored_state
    (set_many MiniJson.dumps MiniJson.loads client "alice" [(K1, state_a)]
       Scope_user_state demo_world).2 "alice" K2
  = stored_state demo_world "alice" K2.
Proof.
  assert (primary_keys_ok demo_world) as Hpk by compute_done.
  split; [exact Hpk|].
  apply (set_many_keeps_rows MiniJson.dumps MiniJson.loads client "alice"
           [(K1, state_a)] Scope_user_state demo_world Hpk).
  right. compute_done.
Defined.

(** [set_many({K1: {"a": 1}, K2: {"b": 2}})] over [{"c": 3}] for [K2] *)
Lemma set_many_stores_batch_witness :
  settled demo_world "alice" ∧
  NoDup [K1; K2] ∧
  stored_fields MiniJson.loads demo_world "alice" K1 = Some (demo_old K1) ∧
  stored_fields MiniJson.loads demo_world "alice" K2 = Some (demo_old K2) ∧
  stored_state
    (set_many MiniJson.dumps MiniJson.loads client "alice"
       [(K1, state_a); (K2, state_b)] Scope_user_state demo_world).2
    "alice" K2
  = [Some (MiniJson.dumps (state_b ∪ demo_old K2))].
Proof.
  assert (NoDup [K1; K2]) as Hnd by compute_done.
  assert (stored_fields MiniJson.loads demo_world "alice" K1
          = Some (demo_old K1)) as H1 by compute_done.
  assert (stored_fields MiniJson.loads demo_world "alice" K2
          = Some (demo_old K2)) as H2 by compute_done.
  split; [exact demo_world_settled|]. split; [exact Hnd|].
  split; [exact H1|]. split; [exact H2|].
  destruct (set_many_stores_batch MiniJson.dumps MiniJson.loads
              MiniJson_loads_dumps client "alice"
              [(K1, state_a); (K2, state_b)] demo_old demo_world
              demo_world_settled Hnd) as (w' & Hset & _ & _ & Hall).
  - intros k state Hin.
    apply elem_of_cons in Hin as [Hin|Hin]; [by injection Hin as -> ->|].
    apply list_elem_of_singleton in Hin. by injection Hin as -> ->.
  - rewrite Hset. cbn [snd]. apply (Hall K2 state_b).
    apply list_elem_of_further, list_elem_of_here.
Defined.

(** [set_many({K1: {"b": 2}})] when the update of alice's row is refused *)
Lemma set_many_update_failure_continues_witness :
  registered rejected_update_world "alice" ∧
  rows_for rejected_update_world "alice" K1
  = [demo_row 1 "alice" K1 (Some state_a) 10] ∧
  1 ∈ rejected_updates rejected_update_world ∧
  set_many MiniJson.dumps MiniJson.loads client "alice" [(K1, state_b)]
    Scope_user_state rejected_update_world
  = (Ok tt,
     logged (Warn_AllBlockKeys 1 [K1])
       (logged (Warn_IntegrityError (RegisteredUser "alice") demo_course K1)
          rejected_update_world)).
Proof.
  assert (registered rejected_update_world "alice") as Hreg
    by (split; compute_done).
  assert (rows_for rejected_update_world "alice" K1
          = [demo_row 1 "alice" K1 (Some state_a) 10]) as Hrows
    by compute_done.
  assert (1 ∈ rejected_updates rejected_update_world) as Hrej by compute_done.
  split; [exact Hreg|]. split; [exact Hrows|]. split; [exact Hrej|].
  exact (set_many_update_failure_continues MiniJson.dumps MiniJson.loads
           client "alice" K1 state_b state_a [] _ rejected_update_world
           Hreg Hrows state_a_round_trip Hrej).
Defined.

(** [delete(K1); set(K1, {"b": 2}); get(K1)] where [{"a": 1}] was stored *)
Lemma set_after_delete_starts_afresh_witness :
  settled one_field_world "alice" ∧
  stored_state one_field_world "alice" K1 = [Some (MiniJson.dumps state_a)] ∧
  stored_state (demo_set state_b (demo_delete None one_field_world))
    "alice" K1 = [Some (MiniJson.dumps state_b)] ∧
  demo_get None (demo_set state_b (demo_delete None one_field_world))
  = Ok (Some state_b).
Proof.
  split; [exact one_field_world_settled|].
  split; [exact one_field_world_stored|].
  destruct (set_after_delete_starts_afresh MiniJson.dumps MiniJson.loads
              MiniJson_loads_dumps MiniJson_dumps_empty client "alice" K1 _
              state_b one_field_world one_field_world_settled
              one_field_world_stored) as [Hstate Hget].
  split; [exact Hstate|]. apply Hget. compute_done.
Defined.

(** [delete_many([K1])] leaves alice's row for [K2] alone *)
Lemma delete_many_keeps_rows_witness :
  primary_keys_ok two_field_world ∧
  shapes (delete_many MiniJson.dumps MiniJson.loads client "alice" [K1]
            Scope_user_state None two_field_world).2
  = shapes two_field_world ∧
  stored_state
    (delete_many MiniJson.dumps MiniJson.loads client "alice" [K1]
       Scope_user_state None two_field_world).2 "alice" K2
  = stored_state two_field_world "alice" K2.
Proof.
  split; [exact two_field_world_primary_keys_ok|].
  destruct (delete_many_keeps_rows MiniJson.dumps MiniJson.loads client
              "alice" [K1] Scope_user_state None two_field_world
              two_field_world_primary_keys_ok) as (_ & Hshapes & Hframe).
  split; [exact Hshapes|]. apply Hframe. right. compute_done.
Defined.

(** [delete_many([K1], fields=["a"])] where alice has no row for [K1] *)
Lemma delete_many_of_absent_keys_is_no_op_witness :
  rows_for demo_world "alice" K1 = [] ∧
  delete_many MiniJson.dumps MiniJson.loads client "alice" [K1]
    Scope_user_state (Some ["a"]) demo_world = (Ok tt, demo_world).
Proof.
  assert (rows_for demo_world "alice" K1 = []) as Hrows by compute_done.
  split; [exact Hrows|].
  apply delete_many_of_absent_keys_is_no_op.
  intros k Hk. apply list_elem_of_singleton in Hk as ->. exact Hrows.
Defined.

(** [delete(K1, fields=["a"])] for bob, whose row has a null state *)
Lemma delete_fields_of_null_state_raises_witness :
  stored_state null_state_world "bob" K1 = [None] ∧
  delete MiniJson.dumps MiniJson.loads client "bob" K1 Scope_user_state
    (Some ["a"]) null_state_world = (Raise TypeError, null_state_world).
Proof.
  assert (stored_state null_state_world "bob" K1 = [None]) as Hstate
    by compute_done.
  split; [exact Hstate|].
  exact (delete_fields_of_null_state_raises MiniJson.dumps MiniJson.loads
           client "bob" K1 ["a"] null_state_world Hstate).
Defined.


(** [delete(K1, fields=["a", "b"]); get(K1)] where [{"a": 1}] is stored *)
Lemma delete_every_field_leaves_tombstone_witness :
  settled one_field_world "alice" ∧
  stored_state one_field_world "alice" K1 = [Some (MiniJson.dumps state_a)] ∧
  stored_state (demo_delete (Some ["a"; "b"]) one_field_world) "alice" K1
  = [Some "{}"] ∧
  get MiniJson.loads client "alice" K1 Scope_user_state None
    (demo_delete (Some ["a"; "b"]) one_field_world) = Raise DoesNotExist.
Proof.
  split; [exact one_field_world_settled|].
  split; [exact one_field_world_stored|].
  apply (delete_every_field_leaves_tombstone MiniJson.dumps MiniJson.loads
           MiniJson_loads_dumps MiniJson_dumps_empty client "alice" K1
           ["a"; "b"] _ state_a one_field_world one_field_world_settled
           one_field_world_stored state_a_round_trip).
  intros f [v Hf]. unfold state_a in Hf.
  apply lookup_singleton_Some in Hf as [<- _].
  apply list_elem_of_here.
Defined.

(** [delete(K1, fields=[]); get(K1)] where [{"a": 1}] is stored *)
Lemma delete_no_fields_named_keeps_state_witness :
  settled one_field_world "alice" ∧
  stored_state one_field_world "alice" K1 = [Some (MiniJson.dumps state_a)] ∧
  stored_fields MiniJson.loads (demo_delete (Some []) one_field_world)
    "alice" K1 = Some state_a ∧
  demo_get None (demo_delete (Some []) one_field_world) = Ok (Some state_a).
Proof.
  split; [exact one_field_world_settled|].
  split; [exact one_field_world_stored|].
  destruct (delete_no_fields_named_keeps_state MiniJson.dumps MiniJson.loads
              MiniJson_loads_dumps client "alice" K1 _ state_a one_field_world
              one_field_world_settled one_field_world_stored
              state_a_round_trip) as (_ & Hfields & Hget).
  split; [exact Hfields|]. apply Hget. compute_done.
Defined.

(** [delete(K1, fields=["a"])] twice *)
Lemma delete_idempotent_witness :
  primary_keys_ok two_field_world ∧
  length (rows_for two_field_world "alice" K1) ≤ 1 ∧
  stored_state
    (demo_delete (Some ["a"]) (demo_delete (Some ["a"]) two_field_world))
    "alice" K1
  = stored_state (demo_delete (Some ["a"]) two_field_world) "alice" K1.
Proof.
  assert (length (rows_for two_field_world "alice" K1) ≤ 1) as Hlen
    by (vm_compute; lia).
  split; [exact two_field_world_primary_keys_ok|]. split; [exact Hlen|].
  exact (delete_idempotent MiniJson.dumps MiniJson.loads MiniJson_loads_dumps
           client "alice" K1 (Some ["a"]) two_field_world
           two_field_world_primary_keys_ok Hlen "alice" K1).
Defined.

(** [delete_many([K1, K2]); get_many([K1, K2])] *)
Lemma delete_many_tombstones_every_key_witness :
  primary_keys_ok two_field_world ∧
  rejected_updates two_field_world = [] ∧
  stored_state
    (delete_many MiniJson.dumps MiniJson.loads client "alice" [K1; K2]
       Scope_user_state None two_field_world).2 "alice" K2
  = [Some "{}"] ∧
  get_many MiniJson.loads client "alice" [K1; K2] Scope_user_state None
    (delete_many MiniJson.dumps MiniJson.loads client "alice" [K1; K2]
       Scope_user_state None two_field_world).2
  = ([], None).
Proof.
  split; [exact two_field_world_primary_keys_ok|]. split; [reflexivity|].
  destruct (delete_many_tombstones_every_key MiniJson.dumps MiniJson.loads
              MiniJson_loads_dumps MiniJson_dumps_empty client "alice"
              [K1; K2] two_field_world two_field_world_primary_keys_ok
              eq_refl) as (w' & Hdel & Hstate & Hget).
  rewrite Hdel. cbn [snd]. split; [|apply Hget].
  rewrite Hstate by apply list_elem_of_further, list_elem_of_here.
  compute_done.
Defined.

(** [get_history(K1)] for alice over the sample log *)
Lemma get_history_yields_every_entry_witness :
  rows_for one_field_world "alice" K1 ≠ [] ∧
  BaseStudentModuleHistory_get_history demo_history
    (rows_for one_field_world "alice" K1) ≠ [] ∧
  Forall (history_entry_decodes MiniJson.loads)
    (BaseStudentModuleHistory_get_history demo_history
       (rows_for one_field_world "alice" K1)) ∧
  get_history MiniJson.loads client demo_history "alice" K1 Scope_user_state
    one_field_world
  = ([XBlockUserState.mk "alice" K1 (Some state_a) 10 Scope_user_state;
      XBlockUserState.mk "alice" K1 None 8 Scope_user_state;
      XBlockUserState.mk "alice" K1 (Some state_b) 6 Scope_user_state;
      XBlockUserState.mk "alice" K1 None 5 Scope_user_state], None).
Proof.
  assert (rows_for one_field_world "alice" K1 ≠ []) as Hrows
    by (vm_compute; discriminate).
  assert (BaseStudentModuleHistory_get_history demo_history
            (rows_for one_field_world "alice" K1) ≠ []) as Hentries
    by (vm_compute; discriminate).
  assert (Forall (history_entry_decodes MiniJson.loads)
            (BaseStudentModuleHistory_get_history demo_history
               (rows_for one_field_world "alice" K1))) as Hdecodes.
  { vm_compute.
    repeat (apply Forall_cons; split; [first [exact I|by eexists]|]).
    apply Forall_nil_2. }
  split; [exact Hrows|]. split; [exact Hentries|]. split; [exact Hdecodes|].
  rewrite (get_history_yields_every_entry MiniJson.loads client demo_history
             "alice" K1 one_field_world Hrows Hentries Hdecodes).
  compute_done.
Defined.

(** [iter_all_for_block(K1)] over the class, in pages of two *)
Lemma iter_all_for_block_complete_witness :
  0 < 2 ∧
  Forall (decodable MiniJson.loads) (block_results K1 class_world) ∧
  iter_all_for_block MiniJson.loads 2 client K1 Scope_user_state class_world
  = ([XBlockUserState.mk "alice" K1 (Some state_a) 10 Scope_user_state;
      XBlockUserState.mk "carol" K1 (Some {["a" := 2%Z]}) 12
        Scope_user_state], None).
Proof.
  assert (0 < 2) as Hsize by lia.
  assert (Forall (decodable MiniJson.loads) (block_results K1 class_world))
    as Hdecodes.
  { vm_compute.
    repeat (apply Forall_cons; split; [by eexists _, _|]).
    apply Forall_nil_2. }
  split; [exact Hsize|]. split; [exact Hdecodes|].
  rewrite (iter_all_for_block_complete MiniJson.loads 2 client K1 class_world
             Hsize Hdecodes).
  compute_done.
Defined.

(** The scans of the table with a null state, in pages of one and of three *)
Lemma scan_does_not_depend_on_page_size_witness :
  0 < 1 ∧ 0 < 3 ∧
  iter_all_for_course MiniJson.loads 1 client demo_course None
    Scope_user_state null_state_world
  = iter_all_for_course MiniJson.loads 3 client demo_course None
      Scope_user_state null_state_world ∧
  iter_all_for_block MiniJson.loads 1 client K1 Scope_user_state
    null_state_world
  = iter_all_for_block MiniJson.loads 3 client K1 Scope_user_state
      null_state_world.
Proof.
  assert (0 < 1) as H1 by lia. assert (0 < 3) as H3 by lia.
  split; [exact H1|]. split; [exact H3|].
  exact (scan_does_not_depend_on_page_size MiniJson.loads 1 3 client
           demo_course None K1 Scope_user_state null_state_world H1 H3).
Defined.


